(** * process_pdfs.py: extraction fallback and document-structure heuristic

    A shallow embedding of [src/process_pdfs.py].  The script reads a PDF with
    a primary backend (pdfplumber), falls back to a secondary backend (PyPDF2)
    when the primary yields no text, and summarises the text with a line
    heuristic (headings versus paragraphs).

    Modelling choices, all taken from the source:
    - a Python [str] is a list of characters; what the Python runtime knows
      about a character (white space, upper, lower and title case) is the
      interface [Unicode], so the results hold for any character database;
    - Python [int] counts ([len], page numbers) are [nat];
    - floating-point values the script carries but never computes with (page
      width and height, [time.time()]) are an abstract type [num];
    - a backend is fallible: each call returns a [result], [Raise] standing
      for a raised instance of [Exception], the class both handlers catch;
    - calls to the backends and to the logger are recorded in a trace;
    - for the driver, [time.time()] is a clock read one value after the
      other, and writing a JSON file is a fallible call of the file. *)

From Stdlib Require Import String Ascii Bool Arith Lia List.
Import ListNotations.

Set Implicit Arguments.

(* ================================================================= *)
(** ** Characters and the [str] methods the script calls *)

(** What the runtime's character database answers for one character. *)
Class Unicode (char : Type) := {
  char_eqb : char -> char -> bool;
  newline : char;                 (* '\n' *)
  ch_isspace : char -> bool;      (* Py_UNICODE_ISSPACE *)
  ch_isupper : char -> bool;      (* Py_UNICODE_ISUPPER *)
  ch_islower : char -> bool;      (* Py_UNICODE_ISLOWER *)
  ch_istitle : char -> bool       (* Py_UNICODE_ISTITLE *)
}.

(** The two facts about the database that some results need. *)
Class UnicodeFacts (char : Type) `{Unicode char} := {
  char_eqb_eq : forall a b : char, char_eqb a b = true <-> a = b;
  newline_isspace : ch_isspace newline = true
}.

Arguments UnicodeFacts char {_}.

Section PyStr.
Context {char : Type} `{Unicode char}.

Definition str := list char.

(** [bool(s)] for a string: non-empty. *)
Definition truthy (A : Type) (s : list A) : bool :=
  match s with [] => false | _ :: _ => true end.

(** [s.split()]: maximal runs of non-space characters, in order.  [cur] is
    the run being read, most recent character first. *)
Fixpoint split_from (cur : str) (s : str) : list str :=
  match s with
  | [] => if truthy cur then [rev cur] else []
  | c :: s' =>
      if ch_isspace c
      then (if truthy cur then rev cur :: split_from [] s'
            else split_from [] s')
      else split_from (c :: cur) s'
  end.

Definition str_split (s : str) : list str := split_from [] s.

(** [s.split(sep)] for a one-character separator: every occurrence cuts,
    empty pieces are kept, and the result is never empty. *)
Fixpoint str_split_sep (sep : char) (s : str) : list str :=
  match s with
  | [] => [[]]
  | c :: s' =>
      if char_eqb c sep then [] :: str_split_sep sep s'
      else match str_split_sep sep s' with
           | piece :: pieces => (c :: piece) :: pieces
           | [] => [[c]]
           end
  end.

Fixpoint str_lstrip (s : str) : str :=
  match s with
  | [] => []
  | c :: s' => if ch_isspace c then str_lstrip s' else s
  end.

Definition str_rstrip (s : str) : str := rev (str_lstrip (rev s)).

(** [s.strip()] *)
Definition str_strip (s : str) : str := str_rstrip (str_lstrip s).

(** The loop of [s.isupper()]: fails at the first lower- or title-case
    character, and remembers whether an upper-case one was seen. *)
Fixpoint isupper_loop (cased : bool) (s : str) : bool :=
  match s with
  | [] => cased
  | c :: s' =>
      if ch_islower c || ch_istitle c then false
      else isupper_loop (cased || ch_isupper c) s'
  end.

(** [s.isupper()], with the one-character shortcut of the runtime. *)
Definition str_isupper (s : str) : bool :=
  match s with
  | [c] => ch_isupper c
  | _ => isupper_loop false s
  end.

(** The loop of [s.istitle()]: an upper- or title-case character may only
    follow an uncased one, a lower-case character only a cased one. *)
Fixpoint istitle_loop (previous_is_cased cased : bool) (s : str) : bool :=
  match s with
  | [] => cased
  | c :: s' =>
      if ch_isupper c || ch_istitle c then
        if previous_is_cased then false else istitle_loop true true s'
      else if ch_islower c then
        if previous_is_cased then istitle_loop true true s' else false
      else istitle_loop false cased s'
  end.

(** [s.istitle()], with the one-character shortcut of the runtime. *)
Definition str_istitle (s : str) : bool :=
  match s with
  | [c] => ch_isupper c || ch_istitle c
  | _ => istitle_loop false false s
  end.

End PyStr.

Arguments str char : clear implicits.

(** Rocq's 8-bit characters read as the code points U+0000 to U+00FF, with
    the classes the runtime gives them. *)
Definition code (c : ascii) : nat := nat_of_ascii c.

Definition between (lo hi n : nat) : bool := (lo <=? n) && (n <=? hi).

Definition latin1_isspace (c : ascii) : bool :=
  let n := code c in
  between 9 13 n || between 28 32 n || (n =? 133) || (n =? 160).

Definition latin1_isupper (c : ascii) : bool :=
  let n := code c in
  between 65 90 n || between 192 214 n || between 216 222 n.

Definition latin1_islower (c : ascii) : bool :=
  let n := code c in
  between 97 122 n || (n =? 170) || (n =? 181) || (n =? 186)
  || between 223 246 n || between 248 255 n.

#[export] Instance latin1 : Unicode ascii := {
  char_eqb := Ascii.eqb;
  newline := ascii_of_nat 10;
  ch_isspace := latin1_isspace;
  ch_isupper := latin1_isupper;
  ch_islower := latin1_islower;
  ch_istitle := fun _ => false
}.

(** A string literal as a [str]. *)
Definition lit (s : string) : str ascii := list_ascii_of_string s.

(* ================================================================= *)
(** ** Fallible calls and the trace of observable calls *)

(** The outcome of a call that may raise an instance of [Exception]. *)
Inductive result (A : Type) : Type :=
| Ok (a : A)
| Raise.

Arguments Ok {A} a.
Arguments Raise {A}.

Definition bind (A B : Type) (m : result A) (k : A -> result B) : result B :=
  match m with
  | Ok a => k a
  | Raise => Raise
  end.

Notation "x <- m ;; k" := (bind m (fun x => k))
  (at level 61, m at next level, right associativity).

(** What a test double around the two backends and the logger observes. *)
Inductive Event : Type :=
| Primary_called      (* extract_text_with_pdfplumber entered *)
| Fallback_called     (* extract_text_with_pypdf2 entered *)
| Log_warning
| Log_error.

Definition Event_eq_dec (a b : Event) : {a = b} + {a <> b}.
Proof. decide equality. Defined.

(* ================================================================= *)
(** ** Data model *)

Section Model.
Context {char : Type} `{Unicode char} {num : Type}.

(** A table grid: rows of cells; the primary backend gives [None] for a
    cell without text. *)
Definition table := list (list (option (str char))).

(** The page dictionaries.  [width] and [height] are absent from the page
    the fallback path synthesizes. *)
Record PageRecord := {
  page_number : nat;
  text : str char;
  tables : list table;
  width : option num;
  height : option num
}.

(** The dictionary [pdf_data]. *)
Record DocumentRecord := {
  total_pages : nat;
  full_text : str char;
  pages : list PageRecord
}.

Record DocumentStats := {
  stats_total_pages : nat;
  word_count : nat;
  character_count : nat;
  paragraph_count : nat;
  table_count : nat
}.

Record ContentStructure := {
  headings : list (str char);
  paragraphs : list (str char);
  structure_tables : list table
}.

Record Metadata := {
  extraction_method : string;
  processing_timestamp : num
}.

(** The dictionary [analyze_document_structure] returns. *)
Record StructureSummary := {
  document_stats : DocumentStats;
  content_structure : ContentStructure;
  metadata : Metadata
}.

(* --------------------------------------------------------------- *)
(** *** The backends, as the script sees one PDF file *)

(** A page object of the primary backend. *)
Record PlumberPage := {
  pl_extract_text : result (option (str char));   (* page.extract_text() *)
  pl_extract_tables : result (list table);        (* page.extract_tables() *)
  pl_width : num;
  pl_height : num
}.

(** One PDF file: what [pdfplumber.open(...).pages] gives, and what
    [PyPDF2.PdfReader(...).pages] gives, each page of the latter being the
    outcome of its [extract_text()]. *)
Record Pdf := {
  pdfplumber_pages : result (list PlumberPage);
  pypdf2_pages : result (list (result (str char)))
}.

(* --------------------------------------------------------------- *)
(** *** extract_text_with_pypdf2 *)

(** [for page in pdf_reader.pages: text += page.extract_text() + "\n"] *)
Fixpoint pypdf2_loop (ps : list (result (str char))) (text : str char)
  : result (str char) :=
  match ps with
  | [] => Ok text
  | page :: ps' =>
      t <- page ;;
      pypdf2_loop ps' (text ++ (t ++ [newline]))
  end.

(** The body of the [try]. *)
Definition pypdf2_try (pdf : Pdf) : result (str char) :=
  ps <- pypdf2_pages pdf ;;
  pypdf2_loop ps [].

Definition extract_text_with_pypdf2 (pdf : Pdf) : str char * list Event :=
  match pypdf2_try pdf with
  | Ok text => (text, [Fallback_called])
  | Raise => ([], [Fallback_called; Log_error])
  end.

(* --------------------------------------------------------------- *)
(** *** extract_text_with_pdfplumber *)

(** [x or ""] *)
Definition or_empty (x : option (str char)) : str char :=
  match x with
  | Some s => if truthy s then s else []
  | None => []
  end.

(** [tables if tables else []] *)
Definition tables_or_empty (ts : list table) : list table :=
  if truthy ts then ts else [].

(** [for page_num, page in enumerate(pdf.pages, 1): ...] with the two
    accumulators of the source. *)
Fixpoint plumber_loop (page_num : nat) (ps : list PlumberPage)
    (pages_data : list PageRecord) (total_text : str char)
  : result (list PageRecord * str char) :=
  match ps with
  | [] => Ok (pages_data, total_text)
  | page :: ps' =>
      t <- pl_extract_text page ;;
      let page_text := or_empty t in
      let total_text := total_text ++ (page_text ++ [newline]) in
      ts <- pl_extract_tables page ;;
      let page_data :=
        {| page_number := page_num;
           text := page_text;
           tables := tables_or_empty ts;
           width := Some (pl_width page);
           height := Some (pl_height page) |} in
      plumber_loop (S page_num) ps' (pages_data ++ [page_data]) total_text
  end.

(** The body of the [try]. *)
Definition plumber_try (pdf : Pdf) : result DocumentRecord :=
  ps <- pdfplumber_pages pdf ;;
  r <- plumber_loop 1 ps [] [] ;;
  Ok {| total_pages := length ps;
        full_text := snd r;
        pages := fst r |}.

(** The dictionary the handler returns. *)
Definition empty_sentinel : DocumentRecord :=
  {| total_pages := 0; full_text := []; pages := [] |}.

Definition extract_text_with_pdfplumber (pdf : Pdf)
  : DocumentRecord * list Event :=
  match plumber_try pdf with
  | Ok d => (d, [Primary_called])
  | Raise => (empty_sentinel, [Primary_called; Log_error])
  end.

(* --------------------------------------------------------------- *)
(** *** analyze_document_structure *)

(** One turn of [for line in lines], on the two lists being built. *)
Definition classify_step (acc : list (str char) * list (str char))
    (line : str char) : list (str char) * list (str char) :=
  let '(headings, paragraphs) := acc in
  let line := str_strip line in
  if truthy line then
    let words_in_line := str_split line in
    if (length words_in_line <=? 10)
       && (str_isupper line || str_istitle line)
    then (headings ++ [line], paragraphs)
    else if 10 <? length words_in_line
    then (headings, paragraphs ++ [line])
    else (headings, paragraphs)
  else (headings, paragraphs).

Definition classify_lines (lines : list (str char))
  : list (str char) * list (str char) :=
  fold_left classify_step lines ([], []).

(** [for page in pages: if page.get("tables"): all_tables.extend(...)] *)
Definition collect_tables (pages : list PageRecord) : list table :=
  fold_left
    (fun all_tables page =>
       if truthy (tables page) then all_tables ++ tables page
       else all_tables)
    pages [].

(** [now] is what [time.time()] returns when the summary is built. *)
Definition analyze_document_structure (pdf_data : DocumentRecord)
    (now : num) : StructureSummary :=
  let full_text := full_text pdf_data in
  let pages := pages pdf_data in
  if negb (truthy full_text) then
    {| document_stats :=
         {| stats_total_pages := 0;
            word_count := 0;
            character_count := 0;
            paragraph_count := 0;
            table_count := 0 |};
       content_structure :=
         {| headings := [];
            paragraphs := [];
            structure_tables := [] |};
       metadata :=
         {| extraction_method := "failed";
            processing_timestamp := now |} |}
  else
    let words := str_split full_text in
    let word_count := length words in
    let char_count := length full_text in
    let lines := str_split_sep newline full_text in
    let '(headings, paragraphs) := classify_lines lines in
    let all_tables := collect_tables pages in
    {| document_stats :=
         {| stats_total_pages := total_pages pdf_data;
            word_count := word_count;
            character_count := char_count;
            paragraph_count := length paragraphs;
            table_count := length all_tables |};
       content_structure :=
         {| headings := firstn 10 headings;
            paragraphs := firstn 5 paragraphs;
            structure_tables := all_tables |};
       metadata :=
         {| extraction_method := "pdfplumber";
            processing_timestamp := now |} |}.

(* --------------------------------------------------------------- *)
(** *** process_single_pdf, up to the call of the analyzer *)

(** The page the fallback path synthesizes. *)
Definition fallback_page (fallback_text : str char) : PageRecord :=
  {| page_number := 1;
     text := fallback_text;
     tables := [];
     width := None;
     height := None |}.

(** The extraction adapter: the primary call, and the fallback when
    [not pdf_data.get("full_text")]. *)
Definition extract_pdf_data (pdf : Pdf) : DocumentRecord * list Event :=
  let '(pdf_data, seen) := extract_text_with_pdfplumber pdf in
  if negb (truthy (full_text pdf_data)) then
    let '(fallback_text, seen') := extract_text_with_pypdf2 pdf in
    ({| total_pages := 1;
        full_text := fallback_text;
        pages := [fallback_page fallback_text] |},
     seen ++ Log_warning :: seen')
  else (pdf_data, seen).

(** [process_single_pdf] from the primary call to the call of the analyzer:
    [structured_data], with the trace of the extraction.  The JSON file
    written afterwards is outside the model. *)
Definition process_single_pdf (pdf : Pdf) (now : num)
  : StructureSummary * list Event :=
  let '(pdf_data, seen) := extract_pdf_data pdf in
  (analyze_document_structure pdf_data now, seen).

(* --------------------------------------------------------------- *)
(** *** Vocabulary of the specification *)

(** The lines the loop looks at: stripped, and not empty. *)
Definition stripped_lines (full_text : str char) : list (str char) :=
  filter (@truthy char) (map str_strip (str_split_sep newline full_text)).

(** The test of the first branch of the loop. *)
Definition is_heading (line : str char) : bool :=
  (length (str_split line) <=? 10)
  && (str_isupper line || str_istitle line).

(** The test under which the second branch is reached and taken. *)
Definition is_paragraph (line : str char) : bool :=
  negb (is_heading line) && (10 <? length (str_split line)).

(** The lists [headings] and [paragraphs] when the loop ends. *)
Definition heading_candidates (full_text : str char) : list (str char) :=
  fst (classify_lines (str_split_sep newline full_text)).

Definition paragraph_candidates (full_text : str char) : list (str char) :=
  snd (classify_lines (str_split_sep newline full_text)).

(** The fallback backend was invoked. *)
Definition fallback_calls (seen : list Event) : nat :=
  count_occ Event_eq_dec seen Fallback_called.

(** Only white space. *)
Definition all_space (s : str char) : bool := forallb ch_isspace s.

(** The invariant the data model of the specification gives a
    [DocumentRecord]: without text, no pages. *)
Definition sentinel_invariant (d : DocumentRecord) : Prop :=
  full_text d = [] -> total_pages d = 0 /\ pages d = [].

(** A record without text carries no table grid. *)
Definition no_tables_without_text (d : DocumentRecord) : Prop :=
  full_text d = [] -> forall p, In p (pages d) -> tables p = [].

(** A page of the primary backend that raises nothing and whose
    [extract_text()] gives [None] or the empty string. *)
Definition yields_no_text (page : PlumberPage) : Prop :=
  (pl_extract_text page = Ok None \/ pl_extract_text page = Ok (Some []))
  /\ pl_extract_tables page <> Raise.

End Model.

Arguments table char : clear implicits.
Arguments PageRecord char num : clear implicits.
Arguments DocumentRecord char num : clear implicits.
Arguments StructureSummary char num : clear implicits.
Arguments PlumberPage char num : clear implicits.
Arguments Pdf char num : clear implicits.

(* ================================================================= *)
(** ** Title case as the specification words it

    The specification glosses title case as "every word starts with an
    upper-case letter and the rest lower-case", a word being a token of the
    line split on white space.  This second definition follows those words
    (the rest of a word is read generously: no upper- or title-case
    character in it); [str_istitle] above is what the code calls. *)

Section SpecWords.
Context {char : Type} `{Unicode char}.

Definition spec_word_title (w : str char) : bool :=
  match w with
  | [] => false
  | c :: rest =>
      ch_isupper c
      && forallb (fun x => negb (ch_isupper x || ch_istitle x)) rest
  end.

Definition spec_title_case (line : str char) : bool :=
  forallb spec_word_title (str_split line).

End SpecWords.

(* ================================================================= *)
(** ** The driver: process_single_pdf as a whole, and process_pdfs *)

Section Driver.
Context {char : Type} `{Unicode char} {num : Type}.

(** Float subtraction, as in [time.time() - start_time]. *)
Variable minus : num -> num -> num.

(** One path of [input_dir.glob("*.pdf")] and what the script meets there:
    [pdf_path.name], [pdf_path.stem], the PDF behind the path, and the
    outcome of writing the JSON file ([open(output_file, 'w')] followed by
    [json.dump]). *)
Record InputFile := {
  file_name : string;
  file_stem : string;
  file_pdf : Pdf char num;
  file_dump : result unit
}.

(** [output_data]: its own two keys, and the three keys that
    [**structured_data] brings. *)
Record OutputRecord := {
  filename : string;
  processing_time : num;
  structured_data : StructureSummary char num
}.

(** What one call of [process_single_pdf] leaves behind: the value it
    returns, the number of clock readings taken so far, the trace, and the
    JSON files it wrote to the end. *)
Record FileRun := {
  run_ok : bool;
  run_tick : nat;
  run_seen : list Event;
  run_written : list (string * OutputRecord)
}.

(** [process_single_pdf] with its [try] and its handler.  [clock] gives
    the successive values of [time.time()], [tick] counts the readings
    already taken.  Nothing before the write raises; info-level log lines
    are not recorded. *)
Definition process_single_pdf_run (clock : nat -> num) (tick : nat)
    (pdf_path : InputFile) : FileRun :=
  let start_time := clock tick in
  let '(summary, seen) :=
    process_single_pdf (file_pdf pdf_path) (clock (1 + tick)) in
  let output_data :=
    {| filename := file_name pdf_path;
       processing_time := minus (clock (2 + tick)) start_time;
       structured_data := summary |} in
  let output_file := (file_stem pdf_path ++ ".json")%string in
  match file_dump pdf_path with
  | Ok _ =>
      {| run_ok := true;
         run_tick := 3 + tick;
         run_seen := seen;
         run_written := [(output_file, output_data)] |}
  | Raise =>
      {| run_ok := false;
         run_tick := 3 + tick;
         run_seen := seen ++ [Log_error];
         run_written := [] |}
  end.

(** The final summary [process_pdfs] prints. *)
Record Report := {
  successful : nat;
  failed : nat;
  total_time : num
}.

(** The variables of the loop of [process_pdfs], with the clock readings
    taken, the trace and the files written. *)
Record LoopState := {
  st_successful : nat;
  st_failed : nat;
  st_tick : nat;
  st_seen : list Event;
  st_written : list (string * OutputRecord)
}.

(** One turn of [for pdf_file in pdf_files]. *)
Definition loop_step (clock : nat -> num) (st : LoopState)
    (pdf_file : InputFile) : LoopState :=
  let r := process_single_pdf_run clock (st_tick st) pdf_file in
  {| st_successful :=
       if run_ok r then S (st_successful st) else st_successful st;
     st_failed := if run_ok r then st_failed st else S (st_failed st);
     st_tick := run_tick r;
     st_seen := st_seen st ++ run_seen r;
     st_written := st_written st ++ run_written r |}.

(** [process_pdfs] on the list the glob returned, the two directories
    being there or created without error: the summary printed (none when
    the list is empty), the trace and the files written. *)
Definition process_pdfs (clock : nat -> num) (pdf_files : list InputFile)
  : option Report * list Event * list (string * OutputRecord) :=
  if negb (truthy pdf_files) then (None, [Log_warning], [])
  else
    let total_start_time := clock 0 in
    let st :=
      fold_left (loop_step clock) pdf_files
        {| st_successful := 0;
           st_failed := 0;
           st_tick := 1;
           st_seen := [];
           st_written := [] |} in
    let total_time := minus (clock (st_tick st)) total_start_time in
    (Some {| successful := st_successful st;
             failed := st_failed st;
             total_time := total_time |},
     st_seen st, st_written st).

(** The write of this file succeeds. *)
Definition dump_ok (pdf_file : InputFile) : bool :=
  match file_dump pdf_file with Ok _ => true | Raise => false end.

(** [out] is the JSON file of [pdf_file]: named after its stem, holding its
    name and the summary of its own PDF built at some clock reading. *)
Definition written_for (pdf_file : InputFile)
    (out : string * OutputRecord) : Prop :=
  fst out = (file_stem pdf_file ++ ".json")%string
  /\ filename (snd out) = file_name pdf_file
  /\ exists now,
       structured_data (snd out)
       = fst (process_single_pdf (file_pdf pdf_file) now).

End Driver.

Arguments InputFile char num : clear implicits.
Arguments OutputRecord char num : clear implicits.
Arguments FileRun char num : clear implicits.
Arguments LoopState char num : clear implicits.
Arguments Report num : clear implicits.

(* ================================================================= *)
(** ** Vocabulary for the backends *)

Section Backends.
Context {char : Type} `{Unicode char} {num : Type}.

(** Neither call on this page raises. *)
Definition page_readable (page : PlumberPage char num) : Prop :=
  pl_extract_text page <> Raise /\ pl_extract_tables page <> Raise.

(** The text and the tables a readable page contributes. *)
Definition page_text (page : PlumberPage char num) : str char :=
  match pl_extract_text page with
  | Ok t => or_empty t
  | Raise => []
  end.

Definition page_tables (page : PlumberPage char num) : list (table char) :=
  match pl_extract_tables page with
  | Ok ts => ts
  | Raise => []
  end.

(** The dictionary built for the page numbered [page_num]. *)
Definition page_record (page_num : nat) (page : PlumberPage char num)
  : PageRecord char num :=
  {| page_number := page_num;
     text := page_text page;
     tables := page_tables page;
     width := Some (pl_width page);
     height := Some (pl_height page) |}.

(** The dictionaries of [enumerate(pages, page_num)]. *)
Fixpoint page_records (page_num : nat) (ps : list (PlumberPage char num))
  : list (PageRecord char num) :=
  match ps with
  | [] => []
  | page :: ps' => page_record page_num page :: page_records (S page_num) ps'
  end.

(** Each piece followed by a newline, all joined. *)
Definition newline_terminated (pieces : list (str char)) : str char :=
  concat (map (fun piece => piece ++ [newline]) pieces).

(** Neither the first nor the last character is white space. *)
Definition no_outer_space (s : str char) : bool :=
  match s with
  | [] => true
  | c :: _ => negb (ch_isspace c)
  end
  && match rev s with
     | [] => true
     | c :: _ => negb (ch_isspace c)
     end.

(** No character is the newline. *)
Definition single_line (s : str char) : bool :=
  forallb (fun c => negb (char_eqb c newline)) s.

(** The number of occurrences of an event in a trace. *)
Definition occurrences (e : Event) (seen : list Event) : nat :=
  count_occ Event_eq_dec seen e.

End Backends.

(* ================================================================= *)
(** ** Concrete inputs *)

(** Both backends raise on this file. *)
Definition unreadable_pdf : Pdf ascii nat :=
  {| pdfplumber_pages := Raise; pypdf2_pages := Raise |}.

(** A page of the primary backend without text and without tables. *)
Definition blank_plumber_page : PlumberPage ascii nat :=
  {| pl_extract_text := Ok None;
     pl_extract_tables := Ok [];
     pl_width := 612;
     pl_height := 792 |}.

(** A scanned file: two pages, no text layer. *)
Definition scanned_pdf : Pdf ascii nat :=
  {| pdfplumber_pages := Ok [blank_plumber_page; blank_plumber_page];
     pypdf2_pages := Ok [Ok []; Ok []] |}.

(** A file the primary backend cannot open and the fallback can read. *)
Definition fallback_only_pdf : Pdf ascii nat :=
  {| pdfplumber_pages := Raise;
     pypdf2_pages := Ok [Ok (lit "INTRODUCTION"); Ok (lit "Second page")] |}.

Definition one_cell_table : table ascii := [[Some (lit "a")]].

(** A page with text and two table grids. *)
Definition table_plumber_page : PlumberPage ascii nat :=
  {| pl_extract_text := Ok (Some (lit "Chapter 1"));
     pl_extract_tables := Ok [one_cell_table; one_cell_table];
     pl_width := 612;
     pl_height := 792 |}.

Definition table_pdf : Pdf ascii nat :=
  {| pdfplumber_pages := Ok [table_plumber_page; blank_plumber_page;
                             table_plumber_page];
     pypdf2_pages := Raise |}.

(** A page whose table extraction raises after its text was read. *)
Definition broken_tables_pdf : Pdf ascii nat :=
  {| pdfplumber_pages :=
       Ok [blank_plumber_page;
           {| pl_extract_text := Ok (Some (lit "Chapter 1"));
              pl_extract_tables := Raise;
              pl_width := 612;
              pl_height := 792 |}];
     pypdf2_pages := Ok [Raise] |}.

(** A line of fifteen words. *)
Definition long_line : str ascii :=
  lit "This is a line with more than ten words in it to qualify as paragraph".

(** [n] copies of [line], each followed by a newline. *)
Fixpoint repeat_line (n : nat) (line : str ascii) : str ascii :=
  match n with
  | 0 => []
  | S n' => line ++ newline :: repeat_line n' line
  end.

(** The sample text of the specification: a heading line and a paragraph
    line. *)
Definition sample_text : str ascii :=
  lit "HELLO WORLD" ++ newline :: long_line ++ [newline].

(** Three files of an input directory: one unreadable by both backends,
    one whose JSON file cannot be written, one without problem. *)
Definition input_files : list (InputFile ascii nat) :=
  [ {| file_name := "broken.pdf"; file_stem := "broken";
       file_pdf := unreadable_pdf; file_dump := Ok tt |};
    {| file_name := "locked.pdf"; file_stem := "locked";
       file_pdf := table_pdf; file_dump := Raise |};
    {| file_name := "report.pdf"; file_stem := "report";
       file_pdf := table_pdf; file_dump := Ok tt |} ].

(** The first of them. *)
Definition unreadable_file : InputFile ascii nat :=
  {| file_name := "broken.pdf"; file_stem := "broken";
     file_pdf := unreadable_pdf; file_dump := Ok tt |}.

(** A clock that advances by one between two readings. *)
Definition unit_clock (tick : nat) : nat := tick.

Definition record_of_text (full_text : str ascii) : DocumentRecord ascii nat :=
  {| total_pages := 1;
     full_text := full_text;
     pages := [fallback_page full_text] |}.

(* ================================================================= *)
(** ** Facts about the [str] methods *)

Section PyStrFacts.
Context {char : Type} `{Unicode char}.

Lemma truthy_false (A : Type) (s : list A) : truthy s = false <-> s = [].
Proof. destruct s; simpl; split; intro E; congruence. Qed.

Lemma truthy_true (A : Type) (s : list A) : truthy s = true <-> s <> [].
Proof. destruct s; simpl; split; intro E; congruence. Qed.

Lemma text_cases (A : Type) (s : list A) : s = [] \/ s <> [].
Proof. destruct s; [left | right]; congruence. Qed.

Lemma split_from_all_space (s cur : str char) :
  all_space s = true ->
  split_from cur s = if truthy cur then [rev cur] else [].
Proof.
  revert cur.
  induction s as [|c s IH]; intros cur Hs; simpl in *.
  - reflexivity.
  - apply andb_true_iff in Hs as [Hc Hs].
    rewrite Hc, (IH [] Hs).
    reflexivity.
Qed.

Lemma str_split_all_space (s : str char) :
  all_space s = true -> str_split s = [].
Proof. intro Hs. unfold str_split. now rewrite split_from_all_space. Qed.

Lemma str_lstrip_all_space (s : str char) :
  all_space s = true -> str_lstrip s = [].
Proof.
  induction s as [|c s IH]; simpl; intro Hs.
  - reflexivity.
  - apply andb_true_iff in Hs as [Hc Hs]. rewrite Hc. auto.
Qed.

Lemma str_strip_all_space (s : str char) :
  all_space s = true -> str_strip s = [].
Proof.
  intro Hs. unfold str_strip, str_rstrip.
  rewrite (@str_lstrip_all_space s Hs). reflexivity.
Qed.

Lemma str_split_sep_all_space (sep : char) (s : str char) :
  all_space s = true ->
  Forall (fun piece => all_space piece = true) (str_split_sep sep s).
Proof.
  induction s as [|c s IH]; simpl; intro Hs.
  - constructor; [reflexivity | constructor].
  - apply andb_true_iff in Hs as [Hc Hs].
    specialize (IH Hs).
    destruct (char_eqb c sep).
    + constructor; [reflexivity | assumption].
    + destruct (str_split_sep sep s) as [|piece pieces].
      * constructor; [simpl; now rewrite Hc | constructor].
      * inversion IH as [|? ? Hpiece Hpieces]; subst.
        constructor; [simpl; now rewrite Hc, Hpiece | assumption].
Qed.

Lemma stripped_lines_all_space (s : str char) :
  all_space s = true -> stripped_lines s = [].
Proof.
  intro Hs. unfold stripped_lines.
  pose proof (@str_split_sep_all_space newline s Hs) as Hall.
  induction Hall as [|piece pieces Hpiece _ IH]; simpl.
  - reflexivity.
  - rewrite str_strip_all_space by exact Hpiece. simpl. exact IH.
Qed.

Lemma stripped_lines_nil : stripped_lines ([] : str char) = [].
Proof. reflexivity. Qed.

(** A line of more than ten tokens never passes the heading test, so the
    paragraph test is the token count alone. *)
Lemma is_paragraph_count (line : str char) :
  is_paragraph line = (10 <? length (str_split line)).
Proof.
  unfold is_paragraph, is_heading.
  destruct (length (str_split line) <=? 10) eqn:Hle; simpl.
  - apply Nat.leb_le in Hle.
    rewrite (proj2 (Nat.ltb_ge _ _) Hle).
    apply andb_false_r.
  - reflexivity.
Qed.

(** One turn of the loop appends the stripped line to the list whose test
    it passes. *)
Lemma classify_step_eq (hs ps : list (str char)) (line : str char) :
  classify_step (hs, ps) line
  = (hs ++ filter is_heading (filter (@truthy char) [str_strip line]),
     ps ++ filter is_paragraph (filter (@truthy char) [str_strip line])).
Proof.
  unfold classify_step. simpl.
  destruct (truthy (str_strip line)); simpl.
  - unfold is_paragraph. fold (is_heading (str_strip line)).
    destruct (is_heading (str_strip line)); simpl.
    + now rewrite app_nil_r.
    + destruct (10 <? length (str_split (str_strip line)));
        now rewrite !app_nil_r.
  - now rewrite !app_nil_r.
Qed.

(** The loop appends to each list the lines that pass its test, in the
    order of the text. *)
Lemma classify_lines_from (lines : list (str char))
    (hs ps : list (str char)) :
  fold_left classify_step lines (hs, ps)
  = (hs ++ filter is_heading (filter (@truthy char) (map str_strip lines)),
     ps ++ filter is_paragraph
             (filter (@truthy char) (map str_strip lines))).
Proof.
  revert hs ps.
  induction lines as [|line lines IH]; intros hs ps.
  - simpl. now rewrite !app_nil_r.
  - change (fold_left classify_step (line :: lines) (hs, ps))
      with (fold_left classify_step lines (classify_step (hs, ps) line)).
    rewrite classify_step_eq, IH.
    change (map str_strip (line :: lines))
      with ([str_strip line] ++ map str_strip lines).
    rewrite !filter_app, <- !app_assoc.
    reflexivity.
Qed.

Lemma heading_candidates_filter (full_text : str char) :
  heading_candidates full_text
  = filter is_heading (stripped_lines full_text).
Proof.
  unfold heading_candidates, classify_lines.
  rewrite classify_lines_from. reflexivity.
Qed.

Lemma paragraph_candidates_filter (full_text : str char) :
  paragraph_candidates full_text
  = filter is_paragraph (stripped_lines full_text).
Proof.
  unfold paragraph_candidates, classify_lines.
  rewrite classify_lines_from. reflexivity.
Qed.

Lemma classify_lines_pair (full_text : str char) :
  classify_lines (str_split_sep newline full_text)
  = (heading_candidates full_text, paragraph_candidates full_text).
Proof.
  unfold heading_candidates, paragraph_candidates.
  now destruct (classify_lines (str_split_sep newline full_text)).
Qed.

End PyStrFacts.

(* ================================================================= *)
(** ** Facts about the two extraction functions *)

Section ExtractionFacts.
Context {char : Type} `{Unicode char} {num : Type}.

(** Each page adds one record and at least its newline. *)
Lemma plumber_loop_lengths (ps : list (PlumberPage char num)) :
  forall page_num pages_data total_text r,
    plumber_loop page_num ps pages_data total_text = Ok r ->
    length (fst r) = length pages_data + length ps
    /\ length total_text + length ps <= length (snd r).
Proof.
  induction ps as [|page ps IH]; intros page_num pages_data total_text r E;
    simpl in E.
  - injection E as <-. simpl. lia.
  - destruct (pl_extract_text page) as [t|]; simpl in E; [|discriminate].
    destruct (pl_extract_tables page) as [ts|]; simpl in E; [|discriminate].
    apply IH in E. rewrite !length_app in E. simpl in E. simpl. lia.
Qed.

(** One raising page makes the whole loop raise. *)
Lemma plumber_loop_raises (ps : list (PlumberPage char num))
    (page : PlumberPage char num) :
  In page ps ->
  pl_extract_text page = Raise \/ pl_extract_tables page = Raise ->
  forall page_num pages_data total_text,
    plumber_loop page_num ps pages_data total_text = Raise.
Proof.
  intros Hin Hraise.
  induction ps as [|p ps IH]; intros page_num pages_data total_text;
    simpl in *.
  - contradiction.
  - destruct (pl_extract_text p) as [t|] eqn:Et; simpl; [|reflexivity].
    destruct (pl_extract_tables p) as [ts|] eqn:Ets; simpl; [|reflexivity].
    destruct Hin as [-> | Hin]; [|now apply IH].
    destruct Hraise; congruence.
Qed.

Lemma pypdf2_loop_raises (ps : list (result (str char))) :
  In Raise ps -> forall text, pypdf2_loop ps text = Raise.
Proof.
  induction ps as [|p ps IH]; intros Hin text; simpl in *.
  - contradiction.
  - destruct p as [t|]; simpl; [|reflexivity].
    destruct Hin as [E | Hin]; [discriminate | now apply IH].
Qed.

(** Pages without text add one newline each. *)
Lemma plumber_loop_no_text (ps : list (PlumberPage char num)) :
  Forall yields_no_text ps ->
  forall page_num pages_data total_text,
  exists pages_data',
    plumber_loop page_num ps pages_data total_text
    = Ok (pages_data', total_text ++ repeat newline (length ps)).
Proof.
  induction 1 as [|page ps [Ht Hts] _ IH];
    intros page_num pages_data total_text; simpl.
  - exists pages_data. now rewrite app_nil_r.
  - assert (exists t, pl_extract_text page = Ok t /\ or_empty t = [])
      as (t & -> & Et)
      by (destruct Ht as [-> | ->]; eexists; split; reflexivity).
    destruct (pl_extract_tables page) as [ts|]; [|congruence].
    simpl. rewrite Et. simpl.
    destruct (IH (S page_num)
                (pages_data
                 ++ [{| page_number := page_num;
                        text := [];
                        tables := tables_or_empty ts;
                        width := Some (pl_width page);
                        height := Some (pl_height page) |}])
                (total_text ++ [newline])) as (pages_data' & ->).
    exists pages_data'. now rewrite <- app_assoc.
Qed.

(** The record of the primary path keeps the invariant of the data
    model: without text it is the sentinel. *)
Lemma primary_sentinel (pdf : Pdf char num) :
  full_text (fst (extract_text_with_pdfplumber pdf)) = [] ->
  fst (extract_text_with_pdfplumber pdf) = empty_sentinel.
Proof.
  unfold extract_text_with_pdfplumber, plumber_try.
  destruct (pdfplumber_pages pdf) as [ps|]; simpl; [|reflexivity].
  destruct (plumber_loop 1 ps [] []) as [[pages_data total_text]|] eqn:E;
    simpl; [|reflexivity].
  intros ->.
  apply plumber_loop_lengths in E. simpl in E.
  destruct E as [Hpages Htext].
  assert (length ps = 0) as Hps by lia.
  rewrite Hps in *.
  apply length_zero_iff_nil in Hpages. subst pages_data.
  reflexivity.
Qed.

(** The adapter, case by case. *)
Lemma extract_pdf_data_primary (pdf : Pdf char num) :
  full_text (fst (extract_text_with_pdfplumber pdf)) <> [] ->
  extract_pdf_data pdf = extract_text_with_pdfplumber pdf.
Proof.
  unfold extract_pdf_data.
  destruct (extract_text_with_pdfplumber pdf) as [d seen]; simpl.
  intro Hd. apply truthy_true in Hd. now rewrite Hd.
Qed.

Lemma extract_pdf_data_fallback (pdf : Pdf char num) :
  full_text (fst (extract_text_with_pdfplumber pdf)) = [] ->
  extract_pdf_data pdf
  = ({| total_pages := 1;
        full_text := fst (extract_text_with_pypdf2 pdf);
        pages := [fallback_page (fst (extract_text_with_pypdf2 pdf))] |},
     snd (extract_text_with_pdfplumber pdf)
     ++ Log_warning :: snd (extract_text_with_pypdf2 pdf)).
Proof.
  unfold extract_pdf_data.
  destruct (extract_text_with_pdfplumber pdf) as [d seen]; simpl.
  intro Hd. rewrite Hd. simpl.
  now destruct (extract_text_with_pypdf2 pdf).
Qed.

Lemma primary_never_calls_fallback (pdf : Pdf char num) :
  fallback_calls (snd (extract_text_with_pdfplumber pdf)) = 0.
Proof.
  unfold extract_text_with_pdfplumber.
  now destruct (plumber_try pdf).
Qed.

Lemma fallback_called_once (pdf : Pdf char num) :
  fallback_calls (snd (extract_text_with_pypdf2 pdf)) = 1.
Proof.
  unfold extract_text_with_pypdf2.
  now destruct (pypdf2_try pdf).
Qed.

Lemma fallback_calls_app (seen seen' : list Event) :
  fallback_calls (seen ++ seen') = fallback_calls seen + fallback_calls seen'.
Proof. apply count_occ_app. Qed.

(** The table loop concatenates. *)
Lemma collect_tables_from (ps : list (PageRecord char num))
    (all_tables : list (table char)) :
  fold_left
    (fun all_tables page =>
       if truthy (tables page) then all_tables ++ tables page
       else all_tables)
    ps all_tables
  = all_tables ++ concat (map (@tables char num) ps).
Proof.
  revert all_tables.
  induction ps as [|page ps IH]; intro all_tables; simpl.
  - now rewrite app_nil_r.
  - rewrite IH.
    destruct (tables page) as [|t ts]; simpl.
    + reflexivity.
    + now rewrite <- app_assoc.
Qed.

Lemma collect_tables_concat (ps : list (PageRecord char num)) :
  collect_tables ps = concat (map (@tables char num) ps).
Proof. unfold collect_tables. now rewrite collect_tables_from. Qed.

Lemma concat_tables_nil (ps : list (PageRecord char num)) :
  (forall p, In p ps -> tables p = []) ->
  concat (map (@tables char num) ps) = [].
Proof.
  induction ps as [|page ps IH]; simpl; intro Hnone.
  - reflexivity.
  - rewrite (Hnone page) by (left; reflexivity). simpl.
    apply IH. intros p Hp. apply Hnone. now right.
Qed.

(** Every record the adapter hands to the analyzer, and every record that
    keeps the invariant of the data model, is without tables when it is
    without text. *)
Lemma adapter_no_tables_without_text (pdf : Pdf char num) :
  no_tables_without_text (fst (extract_pdf_data pdf)).
Proof.
  destruct (truthy (full_text (fst (extract_text_with_pdfplumber pdf))))
    eqn:Hd.
  - apply truthy_true in Hd.
    rewrite extract_pdf_data_primary by exact Hd.
    intro E. contradiction.
  - apply truthy_false in Hd.
    rewrite extract_pdf_data_fallback by exact Hd.
    intros _ p [<- | []]. reflexivity.
Qed.

Lemma sentinel_no_tables_without_text (d : DocumentRecord char num) :
  sentinel_invariant d -> no_tables_without_text d.
Proof.
  intros Hinv Hd p Hp. destruct (Hinv Hd) as [_ Hpages].
  rewrite Hpages in Hp. contradiction.
Qed.

End ExtractionFacts.

#[export] Instance latin1_facts : UnicodeFacts ascii.
Proof.
  split.
  - intros a b. apply Ascii.eqb_eq.
  - reflexivity.
Qed.

(* ================================================================= *)
(** ** The structure analyzer *)

Section Analyzer.
Context {char : Type} `{Unicode char} {num : Type}.

(** The summary of a record with text, field by field. *)
Lemma analyze_with_text (d : DocumentRecord char num) (now : num) :
  full_text d <> [] ->
  analyze_document_structure d now
  = {| document_stats :=
         {| stats_total_pages := total_pages d;
            word_count := length (str_split (full_text d));
            character_count := length (full_text d);
            paragraph_count := length (paragraph_candidates (full_text d));
            table_count := length (collect_tables (pages d)) |};
       content_structure :=
         {| headings := firstn 10 (heading_candidates (full_text d));
            paragraphs := firstn 5 (paragraph_candidates (full_text d));
            structure_tables := collect_tables (pages d) |};
       metadata :=
         {| extraction_method := "pdfplumber";
            processing_timestamp := now |} |}.
Proof.
  intro Hd. apply truthy_true in Hd.
  unfold analyze_document_structure.
  rewrite Hd, classify_lines_pair. reflexivity.
Qed.

(** The summary of a record without text. *)
Lemma analyze_without_text (d : DocumentRecord char num) (now : num) :
  full_text d = [] ->
  analyze_document_structure d now
  = {| document_stats :=
         {| stats_total_pages := 0;
            word_count := 0;
            character_count := 0;
            paragraph_count := 0;
            table_count := 0 |};
       content_structure :=
         {| headings := [];
            paragraphs := [];
            structure_tables := [] |};
       metadata :=
         {| extraction_method := "failed";
            processing_timestamp := now |} |}.
Proof.
  intro Hd. unfold analyze_document_structure. now rewrite Hd.
Qed.

(** C1 (as amended).  A stripped, non-empty line of the text is a heading
    candidate exactly when it has at most 10 white-space-separated tokens
    and [isupper()] or [istitle()] holds of it, title case being that of
    [str.istitle]: no upper-case character directly after a cased one, no
    lower-case character directly after an uncased one or at the start,
    and at least one cased character.  It is a paragraph candidate exactly
    when it has more than 10 tokens, and a line of at most 10 tokens that
    passes neither test is in neither list. *)
Theorem line_classification (full_text line : str char) :
  (In line (heading_candidates full_text) <->
     In line (stripped_lines full_text)
     /\ length (str_split line) <= 10
     /\ (str_isupper line = true \/ str_istitle line = true))
  /\ (In line (paragraph_candidates full_text) <->
        In line (stripped_lines full_text)
        /\ 10 < length (str_split line))
  /\ (In line (stripped_lines full_text) ->
      length (str_split line) <= 10 ->
      str_isupper line = false ->
      str_istitle line = false ->
      ~ In line (heading_candidates full_text)
      /\ ~ In line (paragraph_candidates full_text)).
Proof.
  rewrite heading_candidates_filter, paragraph_candidates_filter.
  rewrite !filter_In, is_paragraph_count.
  unfold is_heading.
  rewrite andb_true_iff, orb_true_iff, Nat.leb_le, Nat.ltb_lt.
  repeat split; try tauto.
  - intros (_ & _ & [E | E]); congruence.
  - intros (_ & E). lia.
Qed.

(** C2.  A record whose [full_text] is empty gets the summary with every
    count zero, the three lists empty and the method "failed". *)
Theorem empty_text_summary (d : DocumentRecord char num) (now : num) :
  full_text d = [] ->
  let s := analyze_document_structure d now in
  word_count (document_stats s) = 0
  /\ character_count (document_stats s) = 0
  /\ paragraph_count (document_stats s) = 0
  /\ table_count (document_stats s) = 0
  /\ headings (content_structure s) = []
  /\ paragraphs (content_structure s) = []
  /\ structure_tables (content_structure s) = []
  /\ extraction_method (metadata s) = "failed"%string.
Proof.
  intros Hd s. subst s. rewrite analyze_without_text by exact Hd.
  simpl. repeat split.
Qed.

(** C5.  The headings of the summary are the first 10 heading-classified
    lines, the paragraphs the first 5 paragraph-classified lines, both in
    the order of the text; so they have at most 10 and at most 5
    elements. *)
Theorem samples_are_prefixes (d : DocumentRecord char num) (now : num) :
  let s := analyze_document_structure d now in
  headings (content_structure s)
  = firstn 10 (filter is_heading (stripped_lines (full_text d)))
  /\ paragraphs (content_structure s)
     = firstn 5 (filter is_paragraph (stripped_lines (full_text d)))
  /\ length (headings (content_structure s)) <= 10
  /\ length (paragraphs (content_structure s)) <= 5.
Proof.
  intro s. subst s.
  destruct (text_cases (full_text d)) as [Hd | Hd].
  - rewrite analyze_without_text by exact Hd.
    rewrite Hd, stripped_lines_nil. simpl.
    repeat split; lia.
  - rewrite analyze_with_text by exact Hd.
    cbn [content_structure headings paragraphs].
    rewrite heading_candidates_filter, paragraph_candidates_filter.
    repeat split; apply firstn_le_length.
Qed.

(** C6.  [paragraph_count] is the number of all paragraph-classified
    lines, whatever the length of the sample. *)
Theorem paragraph_count_untruncated (d : DocumentRecord char num)
    (now : num) :
  paragraph_count (document_stats (analyze_document_structure d now))
  = length (filter is_paragraph (stripped_lines (full_text d))).
Proof.
  destruct (text_cases (full_text d)) as [Hd | Hd].
  - rewrite analyze_without_text by exact Hd.
    rewrite Hd, stripped_lines_nil. reflexivity.
  - rewrite analyze_with_text by exact Hd.
    cbn [document_stats paragraph_count].
    now rewrite paragraph_candidates_filter.
Qed.

(** C7.  For a record that is without tables when it is without text (as
    is every record of the data model and every record the adapter hands
    over), [table_count] is the sum over the pages of their numbers of
    table grids, and the tables of the summary are the pages' table grids
    concatenated in page order, none dropped. *)
Theorem tables_collected (d : DocumentRecord char num) (now : num) :
  no_tables_without_text d ->
  let s := analyze_document_structure d now in
  table_count (document_stats s)
  = list_sum (map (fun page => length (tables page)) (pages d))
  /\ structure_tables (content_structure s)
     = concat (map (@tables char num) (pages d)).
Proof.
  intros Hd s. subst s.
  assert (length (concat (map (@tables char num) (pages d)))
          = list_sum (map (fun page => length (tables page)) (pages d)))
    as Hsum by (rewrite length_concat, map_map; reflexivity).
  destruct (text_cases (full_text d)) as [Ht | Ht].
  - rewrite analyze_without_text by exact Ht. simpl.
    rewrite <- Hsum, (concat_tables_nil (pages d) (Hd Ht)).
    split; reflexivity.
  - rewrite analyze_with_text by exact Ht.
    cbn [document_stats content_structure table_count structure_tables].
    rewrite collect_tables_concat. now split.
Qed.

(** C8.  The method of the summary is "pdfplumber" when the record has
    text and "failed" when it has none, so it is one of the two; and a
    file whose text came from the fallback backend is tagged "pdfplumber"
    as well. *)
Theorem extraction_method_tag :
  (forall (d : DocumentRecord char num) (now : num),
      let tag := extraction_method
                   (metadata (analyze_document_structure d now)) in
      (full_text d <> [] -> tag = "pdfplumber"%string)
      /\ (full_text d = [] -> tag = "failed"%string)
      /\ (tag = "pdfplumber"%string \/ tag = "failed"%string))
  /\ (forall (pdf : Pdf char num) (now : num),
         In Fallback_called (snd (process_single_pdf pdf now)) ->
         fst (extract_text_with_pypdf2 pdf) <> [] ->
         extraction_method (metadata (fst (process_single_pdf pdf now)))
         = "pdfplumber"%string).
Proof.
  assert (forall (d : DocumentRecord char num) (now : num),
             (full_text d <> [] ->
              extraction_method
                (metadata (analyze_document_structure d now))
              = "pdfplumber"%string)
             /\ (full_text d = [] ->
                 extraction_method
                   (metadata (analyze_document_structure d now))
                 = "failed"%string)) as Htag.
  { intros d now. split; intro Hd.
    - now rewrite analyze_with_text.
    - now rewrite analyze_without_text. }
  split.
  - intros d now tag. subst tag.
    destruct (Htag d now) as [Hyes Hno].
    repeat split; try assumption.
    destruct (text_cases (full_text d)) as [Hd | Hd].
    + right. now apply Hno.
    + left. now apply Hyes.
  - intros pdf now Hcalled Htext.
    unfold process_single_pdf in *.
    destruct (truthy (full_text (fst (extract_text_with_pdfplumber pdf))))
      eqn:Hd.
    + apply truthy_true in Hd.
      rewrite extract_pdf_data_primary in * by exact Hd.
      destruct (extract_text_with_pdfplumber pdf) as [d seen] eqn:E.
      simpl in *. now apply Htag.
    + apply truthy_false in Hd.
      rewrite extract_pdf_data_fallback in * by exact Hd.
      simpl. now apply Htag.
Qed.

End Analyzer.

(* ================================================================= *)
(** ** The extraction adapter *)

Section Adapter.
Context {char : Type} `{Unicode char} {num : Type}.

(** C3 (as amended).  The record of the primary path keeps the invariant:
    without text it has 0 pages and an empty page list.  The record handed
    to the analyzer does not: when its text is empty it is the record of
    the fallback path, with [total_pages] 1 and the one synthesized page,
    whose text is empty. *)
Theorem empty_text_records (pdf : Pdf char num) :
  sentinel_invariant (fst (extract_text_with_pdfplumber pdf))
  /\ (full_text (fst (extract_pdf_data pdf)) = [] ->
      fst (extract_pdf_data pdf)
      = {| total_pages := 1;
           full_text := [];
           pages := [{| page_number := 1;
                        text := [];
                        tables := [];
                        width := None;
                        height := None |}] |}).
Proof.
  split.
  - intro Hd. rewrite (primary_sentinel pdf Hd). now split.
  - destruct (text_cases (full_text (fst (extract_text_with_pdfplumber pdf))))
      as [Hd | Hd].
    + rewrite extract_pdf_data_fallback by exact Hd. simpl.
      intros ->. reflexivity.
    + rewrite extract_pdf_data_primary by exact Hd.
      intro E. contradiction.
Qed.

(** C4.  The fallback backend is called exactly when the text of the
    primary path is empty, which includes the case where the primary path
    raised; with text from the primary path it is not called and the
    primary record is handed over.  When it is called, it is called once,
    and the record has [total_pages] 1 and one page, numbered 1, without
    tables, carrying the whole fallback text. *)
Theorem fallback_invocation (pdf : Pdf char num) :
  let primary := fst (extract_text_with_pdfplumber pdf) in
  let d := fst (extract_pdf_data pdf) in
  let seen := snd (extract_pdf_data pdf) in
  (In Fallback_called seen <-> full_text primary = [])
  /\ (plumber_try pdf = Raise -> In Fallback_called seen)
  /\ (full_text primary <> [] -> fallback_calls seen = 0 /\ d = primary)
  /\ (In Fallback_called seen ->
      fallback_calls seen = 1
      /\ total_pages d = 1
      /\ exists page,
          pages d = [page]
          /\ page_number page = 1
          /\ tables page = []
          /\ text page = full_text d).
Proof.
  intros primary d seen. subst primary d seen.
  destruct (text_cases (full_text (fst (extract_text_with_pdfplumber pdf))))
    as [Hd | Hd].
  - rewrite extract_pdf_data_fallback by exact Hd. simpl.
    assert (fallback_calls
              (snd (extract_text_with_pdfplumber pdf)
               ++ Log_warning :: snd (extract_text_with_pypdf2 pdf)) = 1)
      as Hone.
    { rewrite fallback_calls_app, primary_never_calls_fallback.
      unfold fallback_calls. simpl.
      apply (fallback_called_once pdf). }
    assert (In Fallback_called
              (snd (extract_text_with_pdfplumber pdf)
               ++ Log_warning :: snd (extract_text_with_pypdf2 pdf)))
      as Hin.
    { apply (count_occ_In Event_eq_dec).
      unfold fallback_calls in Hone. rewrite Hone. lia. }
    repeat split; try tauto.
    eexists. repeat split.
  - rewrite extract_pdf_data_primary by exact Hd.
    pose proof (primary_never_calls_fallback pdf) as Hzero.
    assert (~ In Fallback_called (snd (extract_text_with_pdfplumber pdf)))
      as Hout by (apply (count_occ_not_In Event_eq_dec); exact Hzero).
    repeat split; try tauto.
    intro Hraise. exfalso. apply Hd.
    unfold extract_text_with_pdfplumber. now rewrite Hraise.
Qed.

(** C9.  Neither extraction function lets an exception out.  When the
    body of its [try] raises -- the file cannot be opened, or the text or
    the tables of one page cannot be extracted --
    [extract_text_with_pdfplumber] returns the record with 0 pages, empty
    text and no pages; when the body of its [try] raises,
    [extract_text_with_pypdf2] returns the empty string. *)
Theorem extraction_never_raises :
  (forall pdf : Pdf char num,
      plumber_try pdf = Raise ->
      fst (extract_text_with_pdfplumber pdf)
      = {| total_pages := 0; full_text := []; pages := [] |})
  /\ (forall pdf : Pdf char num,
         pdfplumber_pages pdf = Raise -> plumber_try pdf = Raise)
  /\ (forall (pdf : Pdf char num) ps page,
         pdfplumber_pages pdf = Ok ps ->
         In page ps ->
         pl_extract_text page = Raise \/ pl_extract_tables page = Raise ->
         plumber_try pdf = Raise)
  /\ (forall pdf : Pdf char num,
         pypdf2_try pdf = Raise ->
         fst (extract_text_with_pypdf2 pdf) = [])
  /\ (forall pdf : Pdf char num,
         pypdf2_pages pdf = Raise -> pypdf2_try pdf = Raise)
  /\ (forall (pdf : Pdf char num) ps,
         pypdf2_pages pdf = Ok ps ->
         In Raise ps ->
         pypdf2_try pdf = Raise).
Proof.
  repeat split.
  - intros pdf E. unfold extract_text_with_pdfplumber. now rewrite E.
  - intros pdf E. unfold plumber_try. now rewrite E.
  - intros pdf ps page E Hin Hraise. unfold plumber_try. rewrite E. simpl.
    now rewrite (plumber_loop_raises ps page Hin Hraise).
  - intros pdf E. unfold extract_text_with_pypdf2. now rewrite E.
  - intros pdf E. unfold pypdf2_try. now rewrite E.
  - intros pdf ps E Hin. unfold pypdf2_try. rewrite E. simpl.
    now apply pypdf2_loop_raises.
Qed.

Context `{!UnicodeFacts char}.

Lemma all_space_newlines (n : nat) :
  all_space (repeat newline n) = true.
Proof.
  induction n as [|n IH]; simpl.
  - reflexivity.
  - now rewrite newline_isspace, IH.
Qed.

(** C10.  A record whose text is not empty but all white space is
    analyzed on the success branch: no words, no paragraph, no heading,
    the character count of the text, and the method "pdfplumber".  When
    it is the record of the primary path the fallback backend is not
    called and that record is the one analyzed.  The primary path gives
    such a text, one newline per page, for a file with at least one page
    whose pages all yield no text. *)
Theorem whitespace_only_text :
  (forall (d : DocumentRecord char num) (now : num),
      full_text d <> [] ->
      all_space (full_text d) = true ->
      let s := analyze_document_structure d now in
      word_count (document_stats s) = 0
      /\ paragraph_count (document_stats s) = 0
      /\ headings (content_structure s) = []
      /\ paragraphs (content_structure s) = []
      /\ character_count (document_stats s) = length (full_text d)
      /\ extraction_method (metadata s) = "pdfplumber"%string)
  /\ (forall (pdf : Pdf char num) (now : num),
         let d := fst (extract_text_with_pdfplumber pdf) in
         full_text d <> [] ->
         fallback_calls (snd (process_single_pdf pdf now)) = 0
         /\ fst (process_single_pdf pdf now)
            = analyze_document_structure d now)
  /\ (forall (pdf : Pdf char num) ps,
         pdfplumber_pages pdf = Ok ps ->
         ps <> [] ->
         Forall yields_no_text ps ->
         let d := fst (extract_text_with_pdfplumber pdf) in
         full_text d = repeat newline (length ps)
         /\ full_text d <> []
         /\ all_space (full_text d) = true).
Proof.
  split; [|split].
  - intros d now Hd Hspace s. subst s.
    rewrite analyze_with_text by exact Hd.
    cbn [document_stats content_structure metadata word_count
         paragraph_count headings paragraphs character_count
         extraction_method].
    rewrite heading_candidates_filter, paragraph_candidates_filter.
    rewrite stripped_lines_all_space by exact Hspace.
    rewrite str_split_all_space by exact Hspace.
    repeat split.
  - intros pdf now d Hd. subst d.
    unfold process_single_pdf.
    rewrite extract_pdf_data_primary by exact Hd.
    pose proof (primary_never_calls_fallback pdf) as Hzero.
    destruct (extract_text_with_pdfplumber pdf) as [d seen].
    simpl in *. now split.
  - intros pdf ps Hps Hsome Hblank d. subst d.
    unfold extract_text_with_pdfplumber, plumber_try.
    rewrite Hps. simpl.
    destruct (plumber_loop_no_text Hblank 1 [] []) as (pages_data & ->).
    simpl. repeat split.
    + destruct ps; [contradiction | discriminate].
    + apply all_space_newlines.
Qed.

End Adapter.

(* ================================================================= *)
(** ** The results at concrete inputs *)

Example sample_text_summary :
  let s := analyze_document_structure (record_of_text sample_text) 0 in
  headings (content_structure s) = [lit "HELLO WORLD"]
  /\ paragraphs (content_structure s) = [long_line]
  /\ paragraph_count (document_stats s) = 1
  /\ table_count (document_stats s) = 0.
Proof. vm_compute. repeat split. Qed.

(** Eight paragraph lines: the count is 8, the sample has 5 lines. *)
Example eight_paragraphs :
  let s :=
    analyze_document_structure (record_of_text (repeat_line 8 long_line)) 0 in
  paragraph_count (document_stats s) = 8
  /\ length (paragraphs (content_structure s)) = 5.
Proof. vm_compute. split; reflexivity. Qed.

(** C1 as stated fails at the line "Chapter 1": the code takes it for a
    heading, while the title case of the specification's words does not
    hold of it, its second word starting with a digit. *)
Lemma chapter_1_is_heading_not_word_title :
  ~ (In (lit "Chapter 1") (heading_candidates (lit "Chapter 1")) <->
       In (lit "Chapter 1") (stripped_lines (lit "Chapter 1"))
       /\ length (str_split (lit "Chapter 1")) <= 10
       /\ (str_isupper (lit "Chapter 1") = true
           \/ spec_title_case (lit "Chapter 1") = true)).
Proof.
  intros [Hcode _].
  assert (In (lit "Chapter 1") (heading_candidates (lit "Chapter 1")))
    as Hin by (vm_compute; left; reflexivity).
  destruct (Hcode Hin) as (_ & _ & [E | E]); vm_compute in E; discriminate.
Qed.

(** In the other direction, every word of "Don't Stop" starts upper-case
    with nothing upper-case after it, and the code drops the line: the
    [t] after the apostrophe is a lower-case character after an uncased
    one. *)
Example dont_stop_is_word_title_not_heading :
  spec_title_case (lit "Don't Stop") = true
  /\ stripped_lines (lit "Don't Stop") = [lit "Don't Stop"]
  /\ heading_candidates (lit "Don't Stop") = []
  /\ paragraph_candidates (lit "Don't Stop") = [].
Proof. vm_compute. repeat split. Qed.

Lemma line_classification_witness :
  In (lit "HELLO WORLD") (heading_candidates sample_text)
  /\ In long_line (paragraph_candidates sample_text).
Proof.
  split.
  - apply (line_classification sample_text (lit "HELLO WORLD")).
    split; [left; reflexivity |].
    split; [vm_compute; lia | left; reflexivity].
  - apply (line_classification sample_text long_line).
    split; [right; left; reflexivity | vm_compute; lia].
Defined.

Lemma empty_text_summary_witness :
  full_text (fst (extract_pdf_data unreadable_pdf)) = []
  /\ extraction_method
       (metadata
          (analyze_document_structure
             (fst (extract_pdf_data unreadable_pdf)) 0))
     = "failed"%string.
Proof.
  split; [reflexivity |].
  apply (empty_text_summary (fst (extract_pdf_data unreadable_pdf)) 0).
  reflexivity.
Defined.

(** C3 as stated fails when both backends fail: the record handed to the
    analyzer has no text, one page and [total_pages] 1. *)
Lemma unreadable_pdf_record_has_a_page :
  ~ sentinel_invariant (fst (extract_pdf_data unreadable_pdf)).
Proof.
  intro Hinv. destruct (Hinv eq_refl) as [Hpages _]. discriminate Hpages.
Qed.

Lemma empty_text_records_witness :
  total_pages (fst (extract_pdf_data unreadable_pdf)) = 1
  /\ length (pages (fst (extract_pdf_data unreadable_pdf))) = 1.
Proof.
  rewrite (proj2 (empty_text_records unreadable_pdf) eq_refl).
  split; reflexivity.
Defined.

Lemma fallback_invocation_witness :
  fallback_calls (snd (extract_pdf_data fallback_only_pdf)) = 1
  /\ total_pages (fst (extract_pdf_data fallback_only_pdf)) = 1
  /\ fallback_calls (snd (extract_pdf_data table_pdf)) = 0.
Proof.
  destruct (fallback_invocation fallback_only_pdf) as (_ & Hraise & _ & Hrec).
  destruct (Hrec (Hraise eq_refl)) as (Hone & Hpages & _).
  destruct (fallback_invocation table_pdf) as (_ & _ & Hprimary & _).
  split; [exact Hone |].
  split; [exact Hpages |].
  apply Hprimary. vm_compute. discriminate.
Defined.

Lemma tables_collected_witness :
  no_tables_without_text (fst (extract_pdf_data table_pdf))
  /\ table_count
       (document_stats
          (analyze_document_structure (fst (extract_pdf_data table_pdf)) 0))
     = 4.
Proof.
  assert (no_tables_without_text (fst (extract_pdf_data table_pdf))) as Hd
    by (intro E; vm_compute in E; discriminate).
  split; [exact Hd |].
  rewrite (proj1 (tables_collected 0 Hd)).
  reflexivity.
Defined.

Lemma extraction_method_tag_witness :
  extraction_method (metadata (fst (process_single_pdf fallback_only_pdf 0)))
  = "pdfplumber"%string.
Proof.
  apply (proj2 (@extraction_method_tag ascii latin1 nat)).
  - vm_compute. auto.
  - vm_compute. discriminate.
Defined.

Lemma extraction_never_raises_witness :
  fst (extract_text_with_pdfplumber broken_tables_pdf)
  = {| total_pages := 0; full_text := []; pages := [] |}
  /\ fst (extract_text_with_pypdf2 broken_tables_pdf) = [].
Proof.
  destruct (@extraction_never_raises ascii latin1 nat)
    as (Hprimary & _ & Hpage & Hfallback & _ & Hfpage).
  split.
  - apply Hprimary.
    eapply Hpage; [reflexivity | right; left; reflexivity | right; reflexivity].
  - apply Hfallback.
    eapply Hfpage; [reflexivity | left; reflexivity].
Defined.

Lemma whitespace_only_text_witness :
  full_text (fst (extract_text_with_pdfplumber scanned_pdf))
  = [newline; newline]
  /\ fallback_calls (snd (process_single_pdf scanned_pdf 0)) = 0
  /\ extraction_method (metadata (fst (process_single_pdf scanned_pdf 0)))
     = "pdfplumber"%string
  /\ word_count (document_stats (fst (process_single_pdf scanned_pdf 0))) = 0.
Proof.
  destruct (@whitespace_only_text ascii latin1 nat latin1_facts)
    as (Hsummary & Hprimary & Hblank).
  assert (Forall yields_no_text [blank_plumber_page; blank_plumber_page])
    as Hpages
    by (repeat constructor; discriminate).
  destruct (Hblank scanned_pdf _ eq_refl ltac:(discriminate) Hpages)
    as (Htext & Hsome & Hspace).
  destruct (Hprimary scanned_pdf 0 Hsome) as (Hzero & ->).
  destruct (Hsummary _ 0 Hsome Hspace) as (Hwords & _ & _ & _ & _ & Htag).
  repeat split; assumption.
Defined.


(* ================================================================= *)
(** ** Further properties: what the two extraction functions return *)

Section ExtractionResults.
Context {char : Type} `{Unicode char} {num : Type}.

Lemma tables_or_empty_id (ts : list (table char)) : tables_or_empty ts = ts.
Proof. now destruct ts. Qed.

Lemma newline_terminated_cons (x : str char) (xs : list (str char)) :
  newline_terminated (x :: xs) = x ++ newline :: newline_terminated xs.
Proof.
  unfold newline_terminated. simpl. now rewrite <- app_assoc.
Qed.

Lemma newline_terminated_app (xs ys : list (str char)) :
  newline_terminated (xs ++ ys)
  = newline_terminated xs ++ newline_terminated ys.
Proof.
  unfold newline_terminated. now rewrite map_app, concat_app.
Qed.

Lemma page_records_numbers (ps : list (PlumberPage char num)) :
  forall page_num,
    map (@page_number char num) (page_records page_num ps)
    = seq page_num (length ps).
Proof.
  induction ps as [|page ps IH]; intro page_num; simpl.
  - reflexivity.
  - now rewrite IH.
Qed.

Lemma page_records_texts (ps : list (PlumberPage char num)) :
  forall page_num,
    map (@text char num) (page_records page_num ps) = map page_text ps.
Proof.
  induction ps as [|page ps IH]; intro page_num; simpl.
  - reflexivity.
  - now rewrite IH.
Qed.

Lemma page_records_tables (ps : list (PlumberPage char num)) :
  forall page_num,
    map (@tables char num) (page_records page_num ps) = map page_tables ps.
Proof.
  induction ps as [|page ps IH]; intro page_num; simpl.
  - reflexivity.
  - now rewrite IH.
Qed.

Lemma page_records_length (ps : list (PlumberPage char num)) :
  forall page_num, length (page_records page_num ps) = length ps.
Proof.
  induction ps as [|page ps IH]; intro page_num; simpl.
  - reflexivity.
  - now rewrite IH.
Qed.

Lemma page_records_sized (ps : list (PlumberPage char num)) :
  forall page_num,
    Forall (fun p => width p <> None /\ height p <> None)
      (page_records page_num ps).
Proof.
  induction ps as [|page ps IH]; intro page_num; simpl; constructor.
  - split; discriminate.
  - apply IH.
Qed.

(** The loop over readable pages. *)
Lemma plumber_loop_readable (ps : list (PlumberPage char num)) :
  Forall page_readable ps ->
  forall page_num pages_data total_text,
    plumber_loop page_num ps pages_data total_text
    = Ok (pages_data ++ page_records page_num ps,
          total_text ++ newline_terminated (map page_text ps)).
Proof.
  induction 1 as [|page ps [Ht Hts] _ IH];
    intros page_num pages_data total_text; simpl.
  - now rewrite !app_nil_r.
  - destruct (pl_extract_text page) as [t|] eqn:Et; [|congruence].
    destruct (pl_extract_tables page) as [ts|] eqn:Ets; [|congruence].
    assert (page_text page = or_empty t) as Etext
      by (unfold page_text; now rewrite Et).
    assert (page_tables page = ts) as Etables
      by (unfold page_tables; now rewrite Ets).
    unfold page_record. rewrite Etext, Etables.
    simpl bind. cbv beta.
    rewrite IH, tables_or_empty_id.
    unfold newline_terminated. simpl map. simpl concat.
    rewrite <- !app_assoc. reflexivity.
Qed.

(** The loop only succeeds over readable pages. *)
Lemma plumber_loop_ok_readable (ps : list (PlumberPage char num)) :
  forall page_num pages_data total_text r,
    plumber_loop page_num ps pages_data total_text = Ok r ->
    Forall page_readable ps.
Proof.
  induction ps as [|page ps IH]; intros page_num pages_data total_text r E.
  - constructor.
  - simpl in E.
    destruct (pl_extract_text page) as [t|] eqn:Et; simpl in E;
      [|discriminate].
    destruct (pl_extract_tables page) as [ts|] eqn:Ets; simpl in E;
      [|discriminate].
    constructor.
    + unfold page_readable. rewrite Et, Ets. split; discriminate.
    + eapply IH. exact E.
Qed.

(** The value of the [try] of the primary path, in the two cases. *)
Lemma plumber_try_cases (pdf : Pdf char num) :
  (plumber_try pdf = Raise
   /\ (pdfplumber_pages pdf = Raise
       \/ exists ps, pdfplumber_pages pdf = Ok ps
                     /\ ~ Forall page_readable ps))
  \/ (exists ps,
         pdfplumber_pages pdf = Ok ps
         /\ Forall page_readable ps
         /\ plumber_try pdf
            = Ok {| total_pages := length ps;
                    full_text := newline_terminated (map page_text ps);
                    pages := page_records 1 ps |}).
Proof.
  unfold plumber_try.
  destruct (pdfplumber_pages pdf) as [ps|] eqn:Eps; simpl.
  - destruct (plumber_loop 1 ps [] []) as [r|] eqn:Eloop; simpl.
    + right. exists ps.
      pose proof (plumber_loop_ok_readable _ _ _ _ Eloop) as Hps.
      rewrite (plumber_loop_readable Hps) in Eloop.
      injection Eloop as <-. simpl. auto.
    + left. split; [reflexivity |]. right. exists ps. split; [reflexivity |].
      intro Hps. rewrite (plumber_loop_readable Hps) in Eloop. discriminate.
  - left. split; [reflexivity | now left].
Qed.

(** X1.  Whatever the backend does, the record of the primary path is
    coherent: [total_pages] is the number of page dictionaries, these are
    numbered 1, 2, ... in order, each carries a width and a height, and
    [full_text] is the text of the pages, in order, each followed by one
    newline. *)
Theorem primary_record_coherent (pdf : Pdf char num) :
  let d := fst (extract_text_with_pdfplumber pdf) in
  total_pages d = length (pages d)
  /\ map (@page_number char num) (pages d) = seq 1 (total_pages d)
  /\ full_text d = newline_terminated (map (@text char num) (pages d))
  /\ Forall (fun p => width p <> None /\ height p <> None) (pages d).
Proof.
  intro d. subst d. unfold extract_text_with_pdfplumber.
  destruct (plumber_try_cases pdf) as [[-> _] | (ps & _ & _ & ->)]; simpl.
  - repeat split. constructor.
  - rewrite page_records_length, page_records_numbers, page_records_texts.
    repeat split. apply page_records_sized.
Qed.

(** X2.  When the file opens and no page raises, the primary path returns
    exactly one dictionary per page of the backend, with the text and the
    tables the backend gave for that page, and logs nothing. *)
Theorem primary_record_of_readable_pages (pdf : Pdf char num)
    (ps : list (PlumberPage char num)) :
  pdfplumber_pages pdf = Ok ps ->
  Forall page_readable ps ->
  extract_text_with_pdfplumber pdf
  = ({| total_pages := length ps;
        full_text := newline_terminated (map page_text ps);
        pages := page_records 1 ps |},
     [Primary_called]).
Proof.
  intros Eps Hps.
  unfold extract_text_with_pdfplumber, plumber_try.
  rewrite Eps. simpl. rewrite (plumber_loop_readable Hps). reflexivity.
Qed.

(** The text of the primary path is empty exactly when its [try] raised or
    the file has no page. *)
Lemma primary_text_empty_iff (pdf : Pdf char num) :
  full_text (fst (extract_text_with_pdfplumber pdf)) = []
  <-> plumber_try pdf = Raise \/ pdfplumber_pages pdf = Ok [].
Proof.
  unfold extract_text_with_pdfplumber.
  destruct (plumber_try_cases pdf) as [[E _] | (ps & Eps & _ & E)];
    rewrite E; simpl.
  - split; auto.
  - rewrite Eps. destruct ps as [|page ps]; simpl.
    + split; auto.
    + split.
      * intro Habs. apply app_eq_nil in Habs as [Habs _].
        apply app_eq_nil in Habs as [_ Habs]. discriminate.
      * intros [Habs | Habs]; discriminate.
Qed.

(** The loop of the fallback over pages that all give a text. *)
Lemma pypdf2_loop_texts (texts : list (str char)) :
  forall text,
    pypdf2_loop (map Ok texts) text = Ok (text ++ newline_terminated texts).
Proof.
  induction texts as [|t texts IH]; intro text; simpl.
  - now rewrite app_nil_r.
  - rewrite IH, newline_terminated_cons, <- !app_assoc. reflexivity.
Qed.

Lemma pypdf2_loop_grows (ps : list (result (str char))) :
  forall text r,
    pypdf2_loop ps text = Ok r -> length text + length ps <= length r.
Proof.
  induction ps as [|page ps IH]; intros text r E; simpl in E.
  - injection E as <-. simpl. lia.
  - destruct page as [t|]; simpl in E; [|discriminate].
    apply IH in E. rewrite !length_app in E. simpl in *. lia.
Qed.

(** X3.  When the reader opens and every page gives a text, the fallback
    returns these texts in order, each followed by one newline. *)
Theorem fallback_text_of_pages (pdf : Pdf char num)
    (texts : list (str char)) :
  pypdf2_pages pdf = Ok (map Ok texts) ->
  extract_text_with_pypdf2 pdf
  = (newline_terminated texts, [Fallback_called]).
Proof.
  intro E. unfold extract_text_with_pypdf2, pypdf2_try.
  rewrite E. simpl. rewrite pypdf2_loop_texts. reflexivity.
Qed.

(** The fallback returns the empty string exactly when its [try] raised
    or the reader has no page. *)
Lemma fallback_text_empty_iff (pdf : Pdf char num) :
  fst (extract_text_with_pypdf2 pdf) = []
  <-> pypdf2_try pdf = Raise \/ pypdf2_pages pdf = Ok [].
Proof.
  unfold extract_text_with_pypdf2, pypdf2_try.
  destruct (pypdf2_pages pdf) as [ps|]; simpl.
  - destruct (pypdf2_loop ps []) as [r|] eqn:E; simpl.
    + split.
      * intros ->. apply pypdf2_loop_grows in E. simpl in E.
        right. destruct ps; [reflexivity | simpl in E; lia].
      * intros [Habs | Habs]; [discriminate |].
        injection Habs as ->. simpl in E. now injection E as <-.
    + split; auto.
  - split; auto.
Qed.

End ExtractionResults.


(* ================================================================= *)
(** ** Further properties: from the backends to the summary *)

Section EndToEnd.
Context {char : Type} `{Unicode char} {num : Type}.

Lemma process_single_pdf_eq (pdf : Pdf char num) (now : num) :
  process_single_pdf pdf now
  = (analyze_document_structure (fst (extract_pdf_data pdf)) now,
     snd (extract_pdf_data pdf)).
Proof.
  unfold process_single_pdf. now destruct (extract_pdf_data pdf).
Qed.

Lemma occurrences_app (e : Event) (seen seen' : list Event) :
  occurrences e (seen ++ seen') = occurrences e seen + occurrences e seen'.
Proof. apply count_occ_app. Qed.

Lemma occurrences_In (e : Event) (seen : list Event) :
  In e seen <-> 0 < occurrences e seen.
Proof. apply (count_occ_In Event_eq_dec). Qed.

(** The trace of the adapter, in the two cases. *)
Lemma fallback_called_iff_no_text (pdf : Pdf char num) :
  In Fallback_called (snd (extract_pdf_data pdf))
  <-> full_text (fst (extract_text_with_pdfplumber pdf)) = [].
Proof.
  destruct (text_cases (full_text (fst (extract_text_with_pdfplumber pdf))))
    as [Hd | Hd].
  - rewrite extract_pdf_data_fallback by exact Hd. simpl.
    split; [auto | intros _].
    apply in_or_app. right. right.
    unfold extract_text_with_pypdf2.
    destruct (pypdf2_try pdf); left; reflexivity.
  - rewrite extract_pdf_data_primary by exact Hd.
    split; [|contradiction].
    unfold extract_text_with_pdfplumber.
    destruct (plumber_try pdf); simpl; intuition discriminate.
Qed.

(** X4.  The fallback backend is called exactly when the [try] of the
    primary path raised or the file has no page; a file with at least one
    page, all readable, never reaches the fallback, even if no page has any
    text. *)
Theorem fallback_called_iff (pdf : Pdf char num) :
  (In Fallback_called (snd (extract_pdf_data pdf))
   <-> plumber_try pdf = Raise \/ pdfplumber_pages pdf = Ok [])
  /\ (forall ps,
         pdfplumber_pages pdf = Ok ps ->
         ps <> [] ->
         Forall page_readable ps ->
         ~ In Fallback_called (snd (extract_pdf_data pdf))).
Proof.
  assert (In Fallback_called (snd (extract_pdf_data pdf))
          <-> plumber_try pdf = Raise \/ pdfplumber_pages pdf = Ok [])
    as Hiff
    by (rewrite fallback_called_iff_no_text; apply primary_text_empty_iff).
  split; [exact Hiff |].
  intros ps Eps Hsome Hps Hin.
  apply Hiff in Hin as [Hraise | Hnone].
  - unfold plumber_try in Hraise. rewrite Eps in Hraise. simpl in Hraise.
    rewrite (plumber_loop_readable Hps) in Hraise. discriminate.
  - congruence.
Qed.

(** X5.  The summary of a file is the "failed" one exactly when each
    backend either raised or found no page. *)
Theorem summary_failed_iff (pdf : Pdf char num) (now : num) :
  extraction_method (metadata (fst (process_single_pdf pdf now)))
  = "failed"%string
  <-> (plumber_try pdf = Raise \/ pdfplumber_pages pdf = Ok [])
      /\ (pypdf2_try pdf = Raise \/ pypdf2_pages pdf = Ok []).
Proof.
  rewrite process_single_pdf_eq. simpl.
  rewrite <- primary_text_empty_iff, <- fallback_text_empty_iff.
  destruct (text_cases (full_text (fst (extract_text_with_pdfplumber pdf))))
    as [Hd | Hd].
  - rewrite extract_pdf_data_fallback by exact Hd. simpl.
    destruct (text_cases (fst (extract_text_with_pypdf2 pdf))) as [Hf | Hf].
    + rewrite analyze_without_text by exact Hf. simpl. tauto.
    + rewrite analyze_with_text by exact Hf. simpl.
      split; [discriminate | tauto].
  - rewrite extract_pdf_data_primary by exact Hd.
    rewrite analyze_with_text by exact Hd. simpl.
    split; [discriminate | tauto].
Qed.

(** X6.  The [total_pages] of the summary is 0 exactly for the "failed"
    summary (although the record analyzed then says 1); it is at most 1
    whenever the fallback was called, whatever the number of pages of the
    file; otherwise it is the number of page dictionaries, at least 1. *)
Theorem summary_total_pages (pdf : Pdf char num) (now : num) :
  let s := fst (process_single_pdf pdf now) in
  let seen := snd (process_single_pdf pdf now) in
  (stats_total_pages (document_stats s) = 0
   <-> extraction_method (metadata s) = "failed"%string)
  /\ (In Fallback_called seen -> stats_total_pages (document_stats s) <= 1)
  /\ (~ In Fallback_called seen ->
      stats_total_pages (document_stats s)
      = length (pages (fst (extract_text_with_pdfplumber pdf)))
      /\ 1 <= stats_total_pages (document_stats s)).
Proof.
  intros s seen. subst s seen.
  rewrite process_single_pdf_eq. simpl.
  rewrite fallback_called_iff_no_text.
  destruct (text_cases (full_text (fst (extract_text_with_pdfplumber pdf))))
    as [Hd | Hd].
  - rewrite extract_pdf_data_fallback by exact Hd. simpl.
    destruct (text_cases (fst (extract_text_with_pypdf2 pdf))) as [Hf | Hf].
    + rewrite analyze_without_text by exact Hf. simpl.
      repeat split; auto; tauto.
    + rewrite analyze_with_text by exact Hf. simpl.
      repeat split; auto; try discriminate; tauto.
  - rewrite extract_pdf_data_primary by exact Hd.
    rewrite analyze_with_text by exact Hd. simpl.
    unfold extract_text_with_pdfplumber in *.
    destruct (plumber_try_cases pdf) as [[E _] | (ps & _ & _ & E)];
      rewrite E in *; simpl in *; [contradiction |].
    rewrite page_records_length.
    assert (1 <= length ps).
    { destruct ps; simpl in *; [contradiction | lia]. }
    repeat split; try tauto; try discriminate; try lia.
Qed.

(** X7.  The adapter calls the primary path first and once, the fallback
    at most once, and logs its warning exactly when it calls the
    fallback. *)
Theorem adapter_trace (pdf : Pdf char num) :
  let seen := snd (extract_pdf_data pdf) in
  hd_error seen = Some Primary_called
  /\ occurrences Primary_called seen = 1
  /\ occurrences Fallback_called seen <= 1
  /\ occurrences Log_warning seen = occurrences Fallback_called seen.
Proof.
  intro seen. subst seen.
  destruct (text_cases (full_text (fst (extract_text_with_pdfplumber pdf))))
    as [Hd | Hd].
  - rewrite extract_pdf_data_fallback by exact Hd. simpl.
    unfold extract_text_with_pdfplumber, extract_text_with_pypdf2.
    destruct (plumber_try pdf), (pypdf2_try pdf); simpl;
      repeat split; lia.
  - rewrite extract_pdf_data_primary by exact Hd.
    unfold extract_text_with_pdfplumber.
    destruct (plumber_try pdf); simpl; repeat split; lia.
Qed.

(** X8.  A summary made through the fallback never reports a table,
    whatever the primary backend had found before it raised. *)
Theorem fallback_summary_without_tables (pdf : Pdf char num) (now : num) :
  In Fallback_called (snd (process_single_pdf pdf now)) ->
  let s := fst (process_single_pdf pdf now) in
  structure_tables (content_structure s) = []
  /\ table_count (document_stats s) = 0.
Proof.
  rewrite process_single_pdf_eq. simpl.
  rewrite fallback_called_iff_no_text. intro Hd.
  rewrite extract_pdf_data_fallback by exact Hd. simpl.
  destruct (text_cases (fst (extract_text_with_pypdf2 pdf))) as [Hf | Hf].
  - rewrite analyze_without_text by exact Hf. now split.
  - rewrite analyze_with_text by exact Hf. now split.
Qed.

(** X9.  For a file with at least one page, all readable, the summary
    keeps every table grid of the backend, page after page, and counts
    them; its [total_pages] is the number of pages and its
    [character_count] the lengths of the page texts plus one newline per
    page. *)
Theorem primary_summary_of_pages (pdf : Pdf char num) (now : num)
    (ps : list (PlumberPage char num)) :
  pdfplumber_pages pdf = Ok ps ->
  ps <> [] ->
  Forall page_readable ps ->
  let s := fst (process_single_pdf pdf now) in
  structure_tables (content_structure s) = concat (map page_tables ps)
  /\ table_count (document_stats s)
     = list_sum (map (fun page => length (page_tables page)) ps)
  /\ stats_total_pages (document_stats s) = length ps
  /\ character_count (document_stats s)
     = list_sum (map (fun page => length (page_text page)) ps) + length ps
  /\ extraction_method (metadata s) = "pdfplumber"%string.
Proof.
  intros Eps Hsome Hps s. subst s.
  rewrite process_single_pdf_eq. simpl.
  assert (extract_text_with_pdfplumber pdf
          = ({| total_pages := length ps;
                full_text := newline_terminated (map page_text ps);
                pages := page_records 1 ps |},
             [Primary_called])) as Eprimary.
  { unfold extract_text_with_pdfplumber, plumber_try.
    rewrite Eps. simpl. now rewrite (plumber_loop_readable Hps). }
  assert (newline_terminated (map page_text ps) <> []) as Htext.
  { destruct ps as [|page ps']; [contradiction |].
    simpl. rewrite newline_terminated_cons.
    intro Habs. apply app_eq_nil in Habs as [_ Habs]. discriminate. }
  rewrite extract_pdf_data_primary by (rewrite Eprimary; exact Htext).
  rewrite Eprimary. simpl fst.
  rewrite analyze_with_text by exact Htext. simpl.
  rewrite collect_tables_concat, page_records_tables.
  repeat split.
  - now rewrite length_concat, map_map.
  - clear. induction ps as [|page ps IH]; simpl.
    + reflexivity.
    + rewrite newline_terminated_cons, length_app. simpl.
      rewrite IH. lia.
Qed.

End EndToEnd.


(* ================================================================= *)
(** ** Further properties: the lines and the counts of the summary *)

Section SummaryFacts.
Context {char : Type} `{Unicode char} {num : Type}.

(** [lstrip] removes a prefix of white space and stops at a character
    that is none. *)
Lemma str_lstrip_split (s : str char) :
  exists pre, s = pre ++ str_lstrip s /\ all_space pre = true.
Proof.
  induction s as [|c s (pre & E & Hpre)]; simpl.
  - exists []. now split.
  - destruct (ch_isspace c) eqn:Hc.
    + exists (c :: pre). simpl. rewrite Hc, Hpre.
      split; [congruence | reflexivity].
    + exists []. now split.
Qed.

Lemma str_lstrip_head (s : str char) :
  match str_lstrip s with
  | [] => True
  | c :: _ => ch_isspace c = false
  end.
Proof.
  induction s as [|c s IH]; simpl.
  - exact I.
  - destruct (ch_isspace c) eqn:Hc; [exact IH | exact Hc].
Qed.

Lemma str_rstrip_split (s : str char) :
  exists post, s = str_rstrip s ++ post /\ all_space post = true.
Proof.
  unfold str_rstrip.
  destruct (str_lstrip_split (rev s)) as (pre & E & Hpre).
  exists (rev pre). split.
  - rewrite <- rev_app_distr, <- E. now rewrite rev_involutive.
  - unfold all_space in *. rewrite forallb_forall in *.
    intros c Hc. apply Hpre. now apply in_rev.
Qed.

Lemma str_strip_no_outer_space (s : str char) :
  no_outer_space (str_strip s) = true.
Proof.
  unfold no_outer_space, str_strip.
  apply andb_true_iff. split.
  - destruct (str_rstrip_split (str_lstrip s)) as (post & E & _).
    pose proof (str_lstrip_head s) as Hhead.
    destruct (str_rstrip (str_lstrip s)) as [|c rest]; [reflexivity |].
    rewrite E in Hhead. simpl in Hhead. now rewrite Hhead.
  - unfold str_rstrip. rewrite rev_involutive.
    pose proof (str_lstrip_head (rev (str_lstrip s))) as Hhead.
    destruct (str_lstrip (rev (str_lstrip s))); [reflexivity |].
    now rewrite Hhead.
Qed.

(** Stripping keeps a property of all the characters. *)
Lemma str_strip_forallb (P : char -> bool) (s : str char) :
  forallb P s = true -> forallb P (str_strip s) = true.
Proof.
  intro Hs. unfold str_strip.
  destruct (str_lstrip_split s) as (pre & E & _).
  destruct (str_rstrip_split (str_lstrip s)) as (post & E' & _).
  rewrite E, forallb_app in Hs. apply andb_true_iff in Hs as [_ Hs].
  rewrite E', forallb_app in Hs. now apply andb_true_iff in Hs as [Hs _].
Qed.

(** The pieces of [split(sep)] hold no separator. *)
Lemma str_split_sep_pieces (sep : char) (s : str char) :
  Forall (fun piece => forallb (fun c => negb (char_eqb c sep)) piece = true)
    (str_split_sep sep s).
Proof.
  induction s as [|c s IH]; simpl.
  - constructor; [reflexivity | constructor].
  - destruct (char_eqb c sep) eqn:Hc.
    + constructor; [reflexivity | exact IH].
    + destruct (str_split_sep sep s) as [|piece pieces].
      * constructor; [simpl; now rewrite Hc | constructor].
      * inversion IH as [|? ? Hpiece Hpieces]; subst.
        constructor; [simpl; now rewrite Hc, Hpiece | exact Hpieces].
Qed.

(** A run being read always ends up as a token. *)
Lemma split_from_started (s cur : str char) :
  cur <> [] -> split_from cur s <> [].
Proof.
  revert cur.
  induction s as [|c s IH]; intros cur Hcur; simpl.
  - destruct cur; [contradiction | discriminate].
  - destruct (ch_isspace c).
    + destruct cur; [contradiction | discriminate].
    + apply IH. discriminate.
Qed.

(** Tokens are separated: two tokens need three characters. *)
Lemma split_from_length (s cur : str char) :
  2 * length (split_from cur s)
  <= length s + (if truthy cur then 2 else 1).
Proof.
  revert cur.
  induction s as [|c s IH]; intro cur; simpl.
  - destruct cur; simpl; lia.
  - destruct (ch_isspace c).
    + specialize (IH []). simpl in IH.
      destruct cur; simpl; lia.
    + specialize (IH (c :: cur)). simpl in IH.
      destruct cur; simpl; lia.
Qed.

(** What the loop keeps of one text: stripped lines of one line each. *)
Lemma stripped_lines_shape (full_text line : str char) :
  In line (stripped_lines full_text) ->
  line <> []
  /\ no_outer_space line = true
  /\ single_line line = true
  /\ 1 <= length (str_split line).
Proof.
  unfold stripped_lines. rewrite filter_In, in_map_iff.
  intros [(raw & <- & Hraw) Hline].
  apply truthy_true in Hline.
  pose proof (str_strip_no_outer_space raw) as Hclean.
  repeat split; try assumption.
  - apply str_strip_forallb.
    pose proof (str_split_sep_pieces newline full_text) as Hpieces.
    rewrite Forall_forall in Hpieces. now apply Hpieces.
  - unfold no_outer_space in Hclean.
    apply andb_true_iff in Hclean as [Hfirst _].
    destruct (str_strip raw) as [|c rest]; [contradiction |].
    apply negb_true_iff in Hfirst.
    unfold str_split. simpl. rewrite Hfirst.
    pose proof (@split_from_started rest [c]) as Hsome.
    destruct (split_from [c] rest); [now elim Hsome | simpl; lia].
Qed.

(** The two samples of the summary are taken from the candidates. *)
Lemma summary_samples (d : DocumentRecord char num) (now : num) :
  let s := analyze_document_structure d now in
  headings (content_structure s)
  = firstn 10 (heading_candidates (full_text d))
  /\ paragraphs (content_structure s)
     = firstn 5 (paragraph_candidates (full_text d))
  /\ paragraph_count (document_stats s)
     = length (paragraph_candidates (full_text d)).
Proof.
  intro s. subst s.
  destruct (text_cases (full_text d)) as [Hd | Hd].
  - rewrite analyze_without_text by exact Hd. rewrite Hd. now split.
  - rewrite analyze_with_text by exact Hd. now split.
Qed.

Lemma In_firstn (A : Type) (n : nat) (l : list A) (x : A) :
  In x (firstn n l) -> In x l.
Proof.
  intro Hx. rewrite <- (firstn_skipn n l). apply in_or_app. now left.
Qed.

(** X10.  Every heading of the summary is a non-empty single line without
    white space at either end, of 1 to 10 tokens, for which [isupper()] or
    [istitle()] holds; every paragraph of the summary is such a line of
    more than 10 tokens; and no line is in both lists. *)
Theorem summary_lines_wellformed (d : DocumentRecord char num) (now : num)
    (line : str char) :
  let s := analyze_document_structure d now in
  (In line (headings (content_structure s)) ->
   line <> []
   /\ no_outer_space line = true
   /\ single_line line = true
   /\ 1 <= length (str_split line) <= 10
   /\ (str_isupper line = true \/ str_istitle line = true))
  /\ (In line (paragraphs (content_structure s)) ->
      line <> []
      /\ no_outer_space line = true
      /\ single_line line = true
      /\ 10 < length (str_split line))
  /\ ~ (In line (headings (content_structure s))
        /\ In line (paragraphs (content_structure s))).
Proof.
  intro s.
  destruct (summary_samples d now) as (Hh & Hp & _).
  fold s in Hh, Hp. rewrite Hh, Hp.
  rewrite heading_candidates_filter, paragraph_candidates_filter.
  assert (In line (firstn 10 (filter is_heading (stripped_lines (full_text d))))
          -> In line (stripped_lines (full_text d))
             /\ length (str_split line) <= 10
             /\ (str_isupper line = true \/ str_istitle line = true))
    as Hheading.
  { intro Hin. apply In_firstn, filter_In in Hin as [Hin Htest].
    unfold is_heading in Htest.
    rewrite andb_true_iff, orb_true_iff, Nat.leb_le in Htest. tauto. }
  assert (In line
            (firstn 5 (filter is_paragraph (stripped_lines (full_text d))))
          -> In line (stripped_lines (full_text d))
             /\ 10 < length (str_split line)) as Hparagraph.
  { intro Hin. apply In_firstn, filter_In in Hin as [Hin Htest].
    rewrite is_paragraph_count, Nat.ltb_lt in Htest. tauto. }
  split; [|split].
  - intro Hin. destruct (Hheading Hin) as (Hline & Hle & Hcase).
    destruct (stripped_lines_shape _ _ Hline) as (? & ? & ? & ?).
    repeat split; assumption.
  - intro Hin. destruct (Hparagraph Hin) as (Hline & Hlt).
    destruct (stripped_lines_shape _ _ Hline) as (? & ? & ? & ?).
    repeat split; assumption.
  - intros [Hin Hin'].
    destruct (Hheading Hin) as (_ & Hle & _).
    destruct (Hparagraph Hin') as (_ & Hlt). lia.
Qed.

(** X11.  The paragraph sample has [min 5 paragraph_count] lines, and it
    is the whole list of paragraph lines when there are at most 5. *)
Theorem paragraph_sample_size (d : DocumentRecord char num) (now : num) :
  let s := analyze_document_structure d now in
  length (paragraphs (content_structure s))
  = Nat.min 5 (paragraph_count (document_stats s))
  /\ (paragraph_count (document_stats s) <= 5 ->
      paragraphs (content_structure s)
      = paragraph_candidates (full_text d)).
Proof.
  intro s.
  destruct (summary_samples d now) as (_ & Hp & Hcount).
  fold s in Hp, Hcount. rewrite Hp, Hcount.
  split.
  - apply length_firstn.
  - intro Hle. now apply firstn_all2.
Qed.

(** X12.  Words need separators: twice the word count is at most the
    character count plus one, so a summary never reports more words than
    characters. *)
Theorem word_count_bound (d : DocumentRecord char num) (now : num) :
  let s := analyze_document_structure d now in
  2 * word_count (document_stats s) <= character_count (document_stats s) + 1
  /\ word_count (document_stats s) <= character_count (document_stats s).
Proof.
  intro s. subst s.
  destruct (text_cases (full_text d)) as [Hd | Hd].
  - rewrite analyze_without_text by exact Hd. simpl. lia.
  - rewrite analyze_with_text by exact Hd.
    cbn [document_stats word_count character_count].
    pose proof (split_from_length (full_text d) []) as Hlen.
    unfold str_split. simpl in Hlen.
    destruct (full_text d); [contradiction | simpl in *; lia].
Qed.

End SummaryFacts.


(* ================================================================= *)
(** ** Further properties: the analysis page by page *)

Section PageByPage.
Context {char : Type} `{Unicode char} {num : Type}.
Context `{!UnicodeFacts char}.

Lemma char_eqb_refl (c : char) : char_eqb c c = true.
Proof. now apply char_eqb_eq. Qed.

Lemma str_split_sep_some (sep : char) (s : str char) :
  str_split_sep sep s <> [].
Proof.
  destruct s as [|c s]; simpl; [discriminate |].
  destruct (char_eqb c sep); [discriminate |].
  destruct (str_split_sep sep s); discriminate.
Qed.

(** A separator between two texts separates their pieces. *)
Lemma str_split_sep_app (sep : char) (a b : str char) :
  str_split_sep sep (a ++ sep :: b)
  = str_split_sep sep a ++ str_split_sep sep b.
Proof.
  induction a as [|c a IH]; simpl.
  - now rewrite char_eqb_refl.
  - destruct (char_eqb c sep); rewrite IH; [reflexivity |].
    pose proof (str_split_sep_some sep a) as Hsome.
    destruct (str_split_sep sep a); [contradiction | reflexivity].
Qed.

Lemma stripped_lines_app (a b : str char) :
  stripped_lines (a ++ newline :: b)
  = stripped_lines a ++ stripped_lines b.
Proof.
  unfold stripped_lines.
  now rewrite str_split_sep_app, map_app, filter_app.
Qed.

Lemma stripped_lines_pages (texts : list (str char)) :
  stripped_lines (newline_terminated texts)
  = concat (map stripped_lines texts).
Proof.
  induction texts as [|t texts IH].
  - reflexivity.
  - rewrite newline_terminated_cons, stripped_lines_app, IH. reflexivity.
Qed.

Lemma filter_concat_map (A : Type) (f : A -> bool) (ls : list (list A)) :
  filter f (concat ls) = concat (map (filter f) ls).
Proof.
  induction ls as [|l ls IH]; simpl.
  - reflexivity.
  - now rewrite filter_app, IH.
Qed.

(** A newline between two texts separates their words. *)
Lemma split_from_app (a b cur : str char) :
  split_from cur (a ++ newline :: b) = split_from cur a ++ split_from [] b.
Proof.
  revert cur.
  induction a as [|c a IH]; intro cur; simpl.
  - rewrite newline_isspace. now destruct (truthy cur).
  - destruct (ch_isspace c); [|apply IH].
    destruct (truthy cur); now rewrite IH.
Qed.

Lemma str_split_pages (texts : list (str char)) :
  str_split (newline_terminated texts) = concat (map str_split texts).
Proof.
  unfold str_split.
  induction texts as [|t texts IH].
  - reflexivity.
  - rewrite newline_terminated_cons, split_from_app, IH. reflexivity.
Qed.

(** The text of the primary record, from its pages. *)
Lemma primary_full_text (pdf : Pdf char num) :
  full_text (fst (extract_text_with_pdfplumber pdf))
  = newline_terminated
      (map (@text char num) (pages (fst (extract_text_with_pdfplumber pdf)))).
Proof.
  unfold extract_text_with_pdfplumber.
  destruct (plumber_try_cases pdf) as [[-> _] | (ps & _ & _ & ->)]; simpl.
  - reflexivity.
  - now rewrite page_records_texts.
Qed.

(** X13.  No line runs over a page break: the heading lines and the
    paragraph lines found in the text of the primary record are those of
    the first page, then those of the second page, and so on. *)
Theorem lines_page_by_page (pdf : Pdf char num) :
  let d := fst (extract_text_with_pdfplumber pdf) in
  heading_candidates (full_text d)
  = concat (map (fun page => heading_candidates (text page)) (pages d))
  /\ paragraph_candidates (full_text d)
     = concat (map (fun page => paragraph_candidates (text page)) (pages d)).
Proof.
  intro d. subst d. rewrite primary_full_text.
  rewrite heading_candidates_filter, paragraph_candidates_filter.
  rewrite stripped_lines_pages, !filter_concat_map, !map_map.
  split; f_equal; apply map_ext; intro page.
  - now rewrite heading_candidates_filter.
  - now rewrite paragraph_candidates_filter.
Qed.

(** X14.  The counts of the summary of the primary record add up over the
    pages: [word_count] is the sum of the word counts of the page texts and
    [paragraph_count] the sum of their numbers of paragraph lines. *)
Theorem counts_page_by_page (pdf : Pdf char num) (now : num) :
  let d := fst (extract_text_with_pdfplumber pdf) in
  let s := analyze_document_structure d now in
  word_count (document_stats s)
  = list_sum (map (fun page => length (str_split (text page))) (pages d))
  /\ paragraph_count (document_stats s)
     = list_sum
         (map (fun page => length (paragraph_candidates (text page)))
            (pages d)).
Proof.
  intros d s. subst s.
  assert (length (str_split (full_text d))
          = list_sum
              (map (fun page => length (str_split (text page))) (pages d)))
    as Hwords.
  { subst d. rewrite primary_full_text, str_split_pages.
    now rewrite length_concat, !map_map. }
  assert (length (paragraph_candidates (full_text d))
          = list_sum
              (map (fun page => length (paragraph_candidates (text page)))
                 (pages d))) as Hparagraphs.
  { subst d. rewrite primary_full_text.
    rewrite paragraph_candidates_filter, stripped_lines_pages.
    rewrite filter_concat_map, length_concat, !map_map.
    f_equal. apply map_ext. intro page.
    now rewrite paragraph_candidates_filter. }
  destruct (text_cases (full_text d)) as [Hd | Hd].
  - rewrite analyze_without_text by exact Hd.
    rewrite <- Hwords, <- Hparagraphs, Hd. now split.
  - rewrite analyze_with_text by exact Hd.
    cbn [document_stats word_count paragraph_count]. now split.
Qed.

End PageByPage.

(* ================================================================= *)
(** ** Further properties: the driver *)

Section DriverFacts.
Context {char : Type} `{Unicode char} {num : Type}.
Variable minus : num -> num -> num.
Variable clock : nat -> num.

Lemma primary_called_once (pdf : Pdf char num) :
  occurrences Primary_called (snd (extract_pdf_data pdf)) = 1.
Proof.
  destruct (text_cases (full_text (fst (extract_text_with_pdfplumber pdf))))
    as [Hd | Hd].
  - rewrite extract_pdf_data_fallback by exact Hd. simpl.
    unfold extract_text_with_pdfplumber, extract_text_with_pypdf2.
    now destruct (plumber_try pdf), (pypdf2_try pdf).
  - rewrite extract_pdf_data_primary by exact Hd.
    unfold extract_text_with_pdfplumber.
    now destruct (plumber_try pdf).
Qed.

(** One call of [process_single_pdf], by the outcome of the write. *)
Lemma run_of_file (tick : nat) (pdf_file : InputFile char num) :
  let r := process_single_pdf_run minus clock tick pdf_file in
  run_ok r = dump_ok pdf_file
  /\ run_tick r = 3 + tick
  /\ occurrences Primary_called (run_seen r) = 1
  /\ (dump_ok pdf_file = false -> run_written r = [])
  /\ (dump_ok pdf_file = true ->
      run_written r
      = [((file_stem pdf_file ++ ".json")%string,
          {| filename := file_name pdf_file;
             processing_time := minus (clock (2 + tick)) (clock tick);
             structured_data :=
               fst (process_single_pdf (file_pdf pdf_file)
                      (clock (1 + tick))) |})]).
Proof.
  unfold process_single_pdf_run, dump_ok.
  rewrite process_single_pdf_eq.
  pose proof (primary_called_once (file_pdf pdf_file)) as Hone.
  destruct (file_dump pdf_file); simpl.
  - repeat split; auto; discriminate.
  - rewrite occurrences_app, Hone. simpl.
    repeat split; auto; discriminate.
Qed.

(** The variables of the loop after the files. *)
Lemma loop_counts (pdf_files : list (InputFile char num)) :
  forall st,
    let st' := fold_left (loop_step minus clock) pdf_files st in
    st_successful st'
    = st_successful st + length (filter (@dump_ok char num) pdf_files)
    /\ st_failed st'
       = st_failed st
         + length (filter (fun f => negb (dump_ok f)) pdf_files)
    /\ occurrences Primary_called (st_seen st')
       = occurrences Primary_called (st_seen st) + length pdf_files.
Proof.
  induction pdf_files as [|pdf_file pdf_files IH]; intro st; simpl.
  - repeat split; lia.
  - destruct (IH (loop_step minus clock st pdf_file)) as (Hs & Hf & Hseen).
    rewrite Hs, Hf, Hseen. unfold loop_step. simpl.
    destruct (run_of_file (st_tick st) pdf_file) as (-> & _ & Hone & _).
    rewrite occurrences_app, Hone.
    destruct (dump_ok pdf_file); simpl; repeat split; lia.
Qed.

Lemma loop_written (pdf_files : list (InputFile char num)) :
  forall st,
  exists outs,
    st_written (fold_left (loop_step minus clock) pdf_files st)
    = st_written st ++ outs
    /\ Forall2 (@written_for char H num)
         (filter (@dump_ok char num) pdf_files) outs.
Proof.
  induction pdf_files as [|pdf_file pdf_files IH]; intro st; simpl.
  - exists []. rewrite app_nil_r. split; [reflexivity | constructor].
  - destruct (IH (loop_step minus clock st pdf_file)) as (outs & -> & Houts).
    unfold loop_step at 1. simpl.
    destruct (run_of_file (st_tick st) pdf_file) as (_ & _ & _ & Hno & Hyes).
    destruct (dump_ok pdf_file).
    + rewrite Hyes by reflexivity. eexists. rewrite <- app_assoc.
      split; [reflexivity |]. simpl. constructor; [|exact Houts].
      repeat split. simpl. eexists. reflexivity.
    + rewrite Hno by reflexivity. exists outs.
      rewrite app_nil_r. now split.
Qed.




(** X18.  A PDF that neither backend can read is no failure for the
    driver: if its JSON file can be written, it is written, with the
    "failed" summary, and [process_single_pdf] returns [True]. *)
Theorem unreadable_pdf_is_written (tick : nat)
    (pdf_file : InputFile char num) :
  plumber_try (file_pdf pdf_file) = Raise ->
  pypdf2_try (file_pdf pdf_file) = Raise ->
  dump_ok pdf_file = true ->
  let r := process_single_pdf_run minus clock tick pdf_file in
  run_ok r = true
  /\ exists out,
      run_written r = [((file_stem pdf_file ++ ".json")%string, out)]
      /\ filename out = file_name pdf_file
      /\ extraction_method (metadata (structured_data out))
         = "failed"%string
      /\ word_count (document_stats (structured_data out)) = 0.
Proof.
  intros Hprimary Hfallback Hdump r.
  destruct (run_of_file tick pdf_file) as (Hok & _ & _ & _ & Hwritten).
  fold r in Hok, Hwritten.
  split; [now rewrite Hok |].
  rewrite (Hwritten Hdump). eexists. split; [reflexivity |]. simpl.
  rewrite process_single_pdf_eq. simpl.
  assert (full_text (fst (extract_text_with_pdfplumber (file_pdf pdf_file)))
          = []) as Hd
    by (unfold extract_text_with_pdfplumber; now rewrite Hprimary).
  rewrite extract_pdf_data_fallback by exact Hd.
  unfold extract_text_with_pypdf2. rewrite Hfallback. simpl.
  repeat split.
Qed.

End DriverFacts.


(* ================================================================= *)
(** ** The further properties at concrete inputs *)

Lemma table_pdf_pages_readable :
  Forall page_readable
    [table_plumber_page; blank_plumber_page; table_plumber_page].
Proof.
  repeat (constructor; [split; discriminate |]). constructor.
Qed.

Lemma primary_record_of_readable_pages_witness :
  total_pages (fst (extract_text_with_pdfplumber table_pdf)) = 3
  /\ snd (extract_text_with_pdfplumber table_pdf) = [Primary_called].
Proof.
  rewrite (primary_record_of_readable_pages table_pdf eq_refl
             table_pdf_pages_readable).
  split; reflexivity.
Defined.

Lemma fallback_text_of_pages_witness :
  fst (extract_text_with_pypdf2 fallback_only_pdf)
  = lit "INTRODUCTION" ++ newline :: lit "Second page" ++ [newline].
Proof.
  rewrite (fallback_text_of_pages fallback_only_pdf
             [lit "INTRODUCTION"; lit "Second page"] eq_refl).
  reflexivity.
Defined.

Lemma fallback_called_iff_witness :
  In Fallback_called (snd (extract_pdf_data unreadable_pdf))
  /\ ~ In Fallback_called (snd (extract_pdf_data table_pdf)).
Proof.
  split.
  - apply (proj1 (fallback_called_iff unreadable_pdf)).
    left. reflexivity.
  - apply (proj2 (fallback_called_iff table_pdf) _ eq_refl).
    + discriminate.
    + exact table_pdf_pages_readable.
Defined.

Lemma summary_total_pages_witness :
  stats_total_pages
    (document_stats (fst (process_single_pdf fallback_only_pdf 0))) <= 1
  /\ 1 <= stats_total_pages
            (document_stats (fst (process_single_pdf table_pdf 0))).
Proof.
  split.
  - apply (summary_total_pages fallback_only_pdf 0).
    vm_compute. do 3 right. left. reflexivity.
  - apply (summary_total_pages table_pdf 0).
    vm_compute. intros [E | []]. discriminate E.
Defined.

Lemma fallback_summary_without_tables_witness :
  In Fallback_called (snd (process_single_pdf fallback_only_pdf 0))
  /\ table_count
       (document_stats (fst (process_single_pdf fallback_only_pdf 0))) = 0.
Proof.
  assert (In Fallback_called (snd (process_single_pdf fallback_only_pdf 0)))
    as Hin by (vm_compute; do 3 right; left; reflexivity).
  split; [exact Hin |].
  apply (fallback_summary_without_tables fallback_only_pdf 0 Hin).
Defined.

Lemma primary_summary_of_pages_witness :
  table_count (document_stats (fst (process_single_pdf table_pdf 0))) = 4
  /\ stats_total_pages
       (document_stats (fst (process_single_pdf table_pdf 0))) = 3.
Proof.
  destruct (primary_summary_of_pages table_pdf 0 eq_refl
              ltac:(discriminate) table_pdf_pages_readable)
    as (_ & Htables & Hpages & _).
  split; [exact Htables | exact Hpages].
Defined.

Lemma summary_lines_wellformed_witness :
  1 <= length (str_split (lit "HELLO WORLD")) <= 10
  /\ 10 < length (str_split long_line).
Proof.
  destruct (summary_lines_wellformed (record_of_text sample_text) 0
              (lit "HELLO WORLD")) as (Hheading & _ & _).
  destruct (summary_lines_wellformed (record_of_text sample_text) 0
              long_line) as (_ & Hparagraph & _).
  split.
  - apply Hheading. vm_compute. left. reflexivity.
  - apply Hparagraph. vm_compute. left. reflexivity.
Defined.

Lemma paragraph_sample_size_witness :
  paragraphs
    (content_structure
       (analyze_document_structure (record_of_text sample_text) 0))
  = paragraph_candidates sample_text.
Proof.
  apply (paragraph_sample_size (record_of_text sample_text) 0).
  vm_compute. lia.
Defined.


Lemma unreadable_pdf_is_written_witness :
  run_ok (process_single_pdf_run Nat.sub unit_clock 1 unreadable_file) = true.
Proof.
  apply (unreadable_pdf_is_written Nat.sub unit_clock 1 unreadable_file);
    reflexivity.
Defined.

Lemma lines_page_by_page_witness :
  heading_candidates (full_text (fst (extract_text_with_pdfplumber table_pdf)))
  = [lit "Chapter 1"; lit "Chapter 1"].
Proof.
  destruct (@lines_page_by_page ascii latin1 nat latin1_facts table_pdf)
    as [Hheadings _].
  rewrite Hheadings. reflexivity.
Defined.

Lemma counts_page_by_page_witness :
  word_count
    (document_stats
       (analyze_document_structure
          (fst (extract_text_with_pdfplumber table_pdf)) 0))
  = 2 + 0 + 2.
Proof.
  destruct (@counts_page_by_page ascii latin1 nat latin1_facts table_pdf 0)
    as [Hwords _].
  rewrite Hwords. reflexivity.
Defined.
